(** * Mobile Repair Assistant backend: serializer, seeder and read endpoints

    A shallow embedding of [main.py] and of the schemas of [schemas.py] it
    uses, with the properties of the serializer, of the seed routine, of the
    guide listing and of the diagnostic endpoint.

    Python values are an inductive type, a Python [dict] is an association
    list in insertion order with unique keys (the order is what
    [doc.items()] iterates in), the database is a finite map from collection
    names to lists of documents, and handlers that touch the store or raise
    are computations in a small state-and-exception monad. *)

From stdpp Require Import gmap strings list fin_maps pretty.
From Stdlib Require Import ZArith Ascii String List Permutation Lia.
Import ListNotations.
Open Scope string_scope.
Open Scope list_scope.
Set Warnings "-register-all".

(** ** Python values *)

(** A BSON ObjectId is a 12-byte value; it is kept as the number it encodes. *)
Record ObjectId := mkObjectId { oid : N }.

(** [datetime.datetime], naive, by its fields. *)
Record datetime := mkDatetime {
  year : Z; month : Z; day : Z;
  hour : Z; minute : Z; second : Z; microsecond : Z
}.

(** The values a stored document or a response can hold. The handlers never
    look inside a number, so integers stand for all of them. *)
Inductive value :=
| VNone
| VBool (b : bool)
| VInt (z : Z)
| VStr (s : string)
| VObjectId (o : ObjectId)
| VDatetime (t : datetime)
| VList (l : list value)
| VDict (d : list (string * value)).

Definition dict := list (string * value).

(** [d.get(k)] *)
Fixpoint dict_get (k : string) (d : dict) : option value :=
  match d with
  | [] => None
  | (k', v) :: d' => if String.eqb k k' then Some v else dict_get k d'
  end.

(** [d[k] = v]: an existing key keeps its position and takes the new value, a
    new key goes to the end. *)
Fixpoint dict_set (k : string) (v : value) (d : dict) : dict :=
  match d with
  | [] => [(k, v)]
  | (k', v') :: d' =>
      if String.eqb k k' then (k, v) :: d' else (k', v') :: dict_set k v d'
  end.

Definition keys (d : dict) : list string := map fst d.

(** A Python dict has each key once. *)
Definition wf_dict (d : dict) : Prop := NoDup (keys d).

(** [isinstance(v, datetime)] *)
Definition is_datetime (v : value) : bool :=
  match v with VDatetime _ => true | _ => false end.

(** [hasattr(x, "__class__") and x.__class__.__name__ == "ObjectId"]: every
    object has a class, so this is the test on the class name. *)
Definition is_ObjectId (x : value) : bool :=
  match x with VObjectId _ => true | _ => false end.

(** ** Text

    A Python [str] is kept as its UTF-8 bytes. A character is a leading byte
    with the continuation bytes (10xxxxxx) that follow it, so the operations
    that count characters skip continuation bytes. *)

Definition is_continuation (c : ascii) : bool :=
  let n := N_of_ascii c in (128 <=? n)%N && (n <? 192)%N.

(** [len(s)] *)
Fixpoint py_len (s : string) : nat :=
  match s with
  | EmptyString => 0
  | String c s' => if is_continuation c then py_len s' else S (py_len s')
  end.

(** [s[:n]] *)
Fixpoint slice_to (n : nat) (s : string) : string :=
  match s with
  | EmptyString => EmptyString
  | String c s' =>
      if is_continuation c then String c (slice_to n s')
      else match n with
           | O => EmptyString
           | S n' => String c (slice_to n' s')
           end
  end.

(** ** Exceptions and the handler monad *)

(** An exception raised by the database driver or by an attribute access;
    [msg] is what [str(e)] gives. *)
Inductive Exception := Exc (msg : string).

Definition exc_str (e : Exception) : string := let 'Exc m := e in m.

(** What a route handler can end with instead of a value: FastAPI's
    [HTTPException], or any other exception, which it lets through. *)
Inductive exn :=
| HTTPException (status_code : Z) (detail : string)
| Other (e : Exception).

Inductive result (E A : Type) :=
| Ok (a : A)
| Raise (e : E).
Arguments Ok {E A} a.
Arguments Raise {E A} e.

(** A computation over a mutable state [S] that returns or raises; what was
    written to the state before a raise stays written. *)
Definition M (E S A : Type) : Type := S -> S * result E A.

Definition ret {E S A} (a : A) : M E S A := fun s => (s, Ok a).

Definition raise {E S A} (e : E) : M E S A := fun s => (s, Raise e).

Definition bind {E S A B} (m : M E S A) (k : A -> M E S B) : M E S B :=
  fun s => match m s with
           | (s', Ok a) => k a s'
           | (s', Raise e) => (s', Raise e)
           end.

(** [try: body except Exception as e: handler] *)
Definition try_except {E S A} (body : M E S A) (handler : E -> M E S A) : M E S A :=
  fun s => match body s with
           | (s', Ok a) => (s', Ok a)
           | (s', Raise e) => handler e s'
           end.

Definition get {E S} : M E S S := fun s => (s, Ok s).

Definition modify {E S} (f : S -> S) : M E S unit := fun s => (f s, Ok tt).

Declare Scope py_scope.
Delimit Scope py_scope with py.
Notation "x <- c ;; k" := (bind c (fun x => k))
  (at level 100, c at next level, right associativity) : py_scope.
Notation "c ;;; k" := (bind c (fun _ => k))
  (at level 100, right associativity) : py_scope.

(** [for x in xs: body(x)] *)
Fixpoint for_each {E S A} (xs : list A) (body : A -> M E S unit) : M E S unit :=
  match xs with
  | [] => ret tt
  | x :: xs' => bind (body x) (fun _ => for_each xs' body)
  end.

(** Truthiness of an optional string: [None] and the empty string are false. *)
Definition truthy (o : option string) : bool :=
  match o with
  | Some s => negb (String.eqb s "")
  | None => false
  end.

(** ** Schemas ([schemas.py]) *)

Record IssueCategory := mkIssueCategory {
  key : string;
  title : string;
  description : option string;
  icon : option string
}.

Record SolutionStep := mkSolutionStep {
  step_title : string;
  details : string
}.

Record SolutionGuide := mkSolutionGuide {
  guide_title : string;
  category_key : string;
  devices : list string;
  summary : option string;
  steps : list SolutionStep;
  difficulty : option string
}.

Record ServiceRequest := mkServiceRequest {
  sr_name : string;
  email : string;
  phone : option string;
  device_model : option string;
  issue_category : option string;
  issue_description : option string;
  urgent : bool
}.

Definition opt_str (o : option string) : value :=
  match o with
  | Some s => VStr s
  | None => VNone
  end.

(** What a pydantic model gives the store: its fields as a dict, in the order
    they are declared. *)
Class BaseModel (A : Type) := model_dump : A -> dict.

#[global] Instance IssueCategory_model : BaseModel IssueCategory := fun c =>
  [ ("key", VStr (key c));
    ("title", VStr (title c));
    ("description", opt_str (description c));
    ("icon", opt_str (icon c)) ].

#[global] Instance SolutionStep_model : BaseModel SolutionStep := fun s =>
  [ ("title", VStr (step_title s));
    ("details", VStr (details s)) ].

#[global] Instance SolutionGuide_model : BaseModel SolutionGuide := fun g =>
  [ ("title", VStr (guide_title g));
    ("category_key", VStr (category_key g));
    ("devices", VList (map VStr (devices g)));
    ("summary", opt_str (summary g));
    ("steps", VList (map (fun s => VDict (model_dump s)) (steps g)));
    ("difficulty", opt_str (difficulty g)) ].

#[global] Instance ServiceRequest_model : BaseModel ServiceRequest := fun r =>
  [ ("name", VStr (sr_name r));
    ("email", VStr (email r));
    ("phone", opt_str (phone r));
    ("device_model", opt_str (device_model r));
    ("issue_category", opt_str (issue_category r));
    ("issue_description", opt_str (issue_description r));
    ("urgent", VBool (urgent r)) ].

(** ** The document store *)

(** What reading an attribute of an object can do. *)
Inductive attribute :=
| AttrMissing
| AttrValue (v : value)
| AttrRaises (e : Exception).

(** The database handle [db] and what is behind it. [fault] is the state of
    the connection: [Some e] when the server cannot be reached, and then
    every call of the driver raises [e]. *)
Record Database := mkDatabase {
  name : attribute;
  fault : option Exception;
  collections : gmap string (list dict);
  next_id : N
}.

(** [db[coll]]: the documents of a collection, none for a collection that was
    never written. *)
Definition documents (d : Database) (coll : string) : list dict :=
  default [] (collections d !! coll).

(** [db[coll].insert_one(record)]: the store gives the record its identifier,
    under ["_id"], and appends it to the collection. *)
Definition insert_one (d : Database) (coll : string) (record : dict) : Database :=
  {| name := name d;
     fault := fault d;
     collections :=
       <[coll := documents d coll ++ [("_id", VObjectId (mkObjectId (next_id d))) :: record]]>
         (collections d);
     next_id := N.succ (next_id d) |}.

(** Equality of two values, as a filter compares them. *)
Fixpoint value_eqb (a b : value) : bool :=
  match a, b with
  | VNone, VNone => true
  | VBool x, VBool y => Bool.eqb x y
  | VInt x, VInt y => Z.eqb x y
  | VStr x, VStr y => String.eqb x y
  | VObjectId x, VObjectId y => N.eqb (oid x) (oid y)
  | VDatetime x, VDatetime y =>
      Z.eqb (year x) (year y) && Z.eqb (month x) (month y) && Z.eqb (day x) (day y)
      && Z.eqb (hour x) (hour y) && Z.eqb (minute x) (minute y)
      && Z.eqb (second x) (second y) && Z.eqb (microsecond x) (microsecond y)
  | VList l, VList m =>
      (fix go (l m : list value) : bool :=
         match l, m with
         | [], [] => true
         | x :: l', y :: m' => value_eqb x y && go l' m'
         | _, _ => false
         end) l m
  | VDict d, VDict e =>
      (fix go (d e : list (string * value)) : bool :=
         match d, e with
         | [], [] => true
         | (k, x) :: d', (k', y) :: e' => String.eqb k k' && value_eqb x y && go d' e'
         | _, _ => false
         end) d e
  | _, _ => false
  end.

(** A filter is a dict of field-equality constraints; the empty filter
    matches every document. *)
Definition matches (filt doc : dict) : bool :=
  forallb (fun '(k, v) =>
             match dict_get k doc with
             | Some v' => value_eqb v' v
             | None => false
             end) filt.

(** [db.list_collection_names()] *)
Definition list_collection_names (d : Database) : result Exception (list string) :=
  match fault d with
  | Some e => Raise e
  | None => Ok (map fst (map_to_list (collections d)))
  end.

(** The calls a handler makes on the store, in the order it makes them. *)
Inductive Event :=
| Count (coll : string) (filt : dict)
| Insert (coll : string) (doc : dict)
| Find (coll : string) (filt : dict).

(** The module-level state of the service: the handle [db] of [database.py],
    [None] when it was never initialised, and the calls made so far. *)
Record World := mkWorld {
  db : option Database;
  calls : list Event
}.

Definition log (ev : Event) (w : World) : World :=
  {| db := db w; calls := calls w ++ [ev] |}.

Definition StoreUnavailable : Exception := Exc "StoreUnavailable".

(** [db[coll].count_documents(filt)] *)
Definition count_documents (coll : string) (filt : dict) : M exn World nat :=
  fun w =>
    match db w with
    | None => (w, Raise (Other (Exc "'NoneType' object is not subscriptable")))
    | Some d =>
        match fault d with
        | Some e => (log (Count coll filt) w, Raise (Other e))
        | None => (log (Count coll filt) w,
                   Ok (length (filter (fun doc => matches filt doc) (documents d coll))))
        end
    end.

(** ** The handlers of [main.py] *)

Section Handlers.

(** The builtin [str] and [datetime.isoformat] belong to the Python runtime;
    the handlers are read for any rendering they give. *)
Variable str : value -> string.
Variable isoformat : datetime -> string.

(** [_serialize]: one pass over [doc.items()], writing into [out]. *)
Definition serialize_item (out : dict) (kv : string * value) : dict :=
  let '(k, v) := kv in
  if String.eqb k "_id" then dict_set "id" (VStr (str v)) out
  else match v with
       | VDatetime t => dict_set k (VStr (isoformat t)) out
       | VList l =>
           dict_set k (VList (map (fun x => if is_ObjectId x then VStr (str x) else x) l)) out
       | _ => dict_set k v out
       end.

Definition _serialize (doc : dict) : dict :=
  fold_left serialize_item doc [].

(** The key and the value one item is written under, read off
    [serialize_item]. *)
Definition out_key (kv : string * value) : string :=
  if String.eqb (fst kv) "_id" then "id" else fst kv.

Definition out_value (kv : string * value) : value :=
  if String.eqb (fst kv) "_id" then VStr (str (snd kv))
  else match snd kv with
       | VDatetime t => VStr (isoformat t)
       | VList l => VList (map (fun x => if is_ObjectId x then VStr (str x) else x) l)
       | v => v
       end.

(** Modelled from the spec: [create_document] of [database.py], which is not
    among the sources. It persists one record and returns the identifier the
    store assigned to it, as a string; on a store that was never initialised
    or cannot be reached it raises. The stored document is the record's
    fields with the new identifier under ["_id"]. *)
Definition create_document {A} `{BaseModel A} (coll : string) (data : A) : M exn World string :=
  fun w =>
    match db w with
    | None => (w, Raise (Other StoreUnavailable))
    | Some d =>
        let record := model_dump data in
        match fault d with
        | Some e => (log (Insert coll record) w, Raise (Other e))
        | None =>
            ({| db := Some (insert_one d coll record);
                calls := calls w ++ [Insert coll record] |},
             Ok (str (VObjectId (mkObjectId (next_id d)))))
        end
    end.

(** Modelled from the spec: [get_documents] of [database.py], which is not
    among the sources. It returns the documents of the collection that match
    the filter, in the store's order; on a store that was never initialised
    it returns the empty sequence, on one that cannot be reached it raises. *)
Definition get_documents (coll : string) (filt : dict) : M exn World (list dict) :=
  fun w =>
    match db w with
    | None => (w, Ok [])
    | Some d =>
        match fault d with
        | Some e => (log (Find coll filt) w, Raise (Other e))
        | None => (log (Find coll filt) w,
                   Ok (filter (fun doc => matches filt doc) (documents d coll)))
        end
    end.

Open Scope py_scope.

(** [GET /api/categories] *)
Definition list_categories : M exn World (list dict) :=
  docs <- get_documents "issuecategory" [] ;;
  ret (map _serialize docs).

(** [GET /api/guides] *)
Definition list_guides (category_key : option string) : M exn World (list dict) :=
  let filt := if truthy category_key
              then [("category_key", opt_str category_key)]
              else [] in
  docs <- get_documents "solutionguide" filt ;;
  ret (map _serialize docs).

Definition seed_categories : list IssueCategory :=
  [ mkIssueCategory "icloud" "iCloud/Activation Lock"
      (Some "Help with activation lock and iCloud lock issues") (Some "cloud");
    mkIssueCategory "frp" "FRP (Factory Reset Protection)"
      (Some "Google account lock/FRP bypass help") (Some "shield");
    mkIssueCategory "screen-lock" "Screen/Pin/Pattern Lock"
      (Some "Forgotten screen lock resolutions") (Some "lock");
    mkIssueCategory "bootloop" "Bootloop/No Boot"
      (Some "Device stuck on boot logo or not starting") (Some "refresh") ].

Definition seed_guides : list SolutionGuide :=
  [ mkSolutionGuide "Check Activation Lock Status" "icloud"
      ["iPhone 8+"; "iPad (2018+)"]
      (Some "Verify activation lock status and prepare ownership proof")
      [ mkSolutionStep "Find IMEI/Serial"
          "From the SIM tray or box. If device is on, go to Settings > General > About.";
        mkSolutionStep "Check Online"
          "Use Apple's support to check coverage and activation lock status.";
        mkSolutionStep "Contact Original Owner"
          "Request remote removal via iCloud.com > Find My." ]
      (Some "medium");
    mkSolutionGuide "FRP Removal Preparation" "frp"
      ["Samsung Galaxy S9+"; "Pixel 3+"]
      (Some "Collect details and follow safe FRP bypass preparation steps")
      [ mkSolutionStep "Know the Patch Level"
          "Find the Android security patch level to choose a compatible method.";
        mkSolutionStep "Network Ready"
          "Ensure stable Wi‑Fi; some steps require SIM with PIN.";
        mkSolutionStep "OTG/PC Tools"
          "Have a USB cable and a computer ready for ADB-based methods." ]
      (Some "hard");
    mkSolutionGuide "Forgot Screen PIN on Android" "screen-lock"
      ["Android 8+"]
      (Some "Try non-destructive options before reset")
      [ mkSolutionStep "Find My Device Unlock"
          "If enabled, use google.com/android/find to attempt unlock or reset.";
        mkSolutionStep "OEM Account Unlock"
          "Some vendors allow remote unlock after verification.";
        mkSolutionStep "Backup then Reset"
          "If nothing works, use recovery mode to factory reset (will erase data)." ]
      (Some "easy") ].

(** [POST /api/seed] *)
Definition seed_sample_data : M exn World dict :=
  fun w =>
    match db w with
    | None => raise (HTTPException 500 "Database not available") w
    | Some _ =>
        (n <- count_documents "issuecategory" [] ;;
         (if Nat.eqb n 0
          then for_each seed_categories (fun cat => _ <- create_document "issuecategory" cat ;; ret tt)
          else ret tt) ;;;
         m <- count_documents "solutionguide" [] ;;
         (if Nat.eqb m 0
          then for_each seed_guides (fun g => _ <- create_document "solutionguide" g ;; ret tt)
          else ret tt) ;;;
         ret [("message", VStr "Seed complete")]) w
    end.

(** [str(e)] for what a handler can catch: Starlette prints an
    [HTTPException] as its status code, a colon and its detail. *)
Definition exn_str (e : exn) : string :=
  match e with
  | HTTPException status_code detail => pretty status_code +:+ ": " +:+ detail
  | Other e' => exc_str e'
  end.

(** [POST /api/requests] *)
Definition create_service_request (payload : ServiceRequest) : M exn World dict :=
  try_except
    (new_id <- create_document "servicerequest" payload ;;
     ret [("id", VStr new_id); ("message", VStr "Request submitted successfully")])
    (fun e => raise (HTTPException 500 (exn_str e))).

(** [GET /] and [GET /api/health] *)
Definition read_root : dict :=
  [("message", VStr "Mobile Repair Assistant Backend Running")].

Definition health : dict := [("status", VStr "ok")].

(** What is served for the documents the store keeps for records inserted
    from identifier [n] on: each record with its identifier, as a string,
    in front under ["id"]. *)
Fixpoint served_docs (n : N) (records : list dict) : list dict :=
  match records with
  | [] => []
  | r :: rs =>
      (("id", VStr (str (VObjectId (mkObjectId n)))) :: r) :: served_docs (N.succ n) rs
  end.

(** [GET /test]. The state is the local dict [response]; [getenv] is
    [os.getenv]. *)
Definition set_item (k : string) (v : value) : M Exception dict unit :=
  modify (dict_set k v).

Definition initial_response : dict :=
  [ ("backend", VStr "✅ Running");
    ("database", VStr "❌ Not Available");
    ("database_url", VNone);
    ("database_name", VNone);
    ("connection_status", VStr "Not Connected");
    ("collections", VList []) ].

(** [db.name if hasattr(db, 'name') else "✅ Connected"]: [hasattr] answers
    [False] for a missing attribute and lets any other exception through. *)
Definition name_or_default (d : Database) : M Exception dict value :=
  match name d with
  | AttrValue v => ret v
  | AttrMissing => ret (VStr "✅ Connected")
  | AttrRaises e => raise e
  end.

Definition call {S A} (r : result Exception A) : M Exception S A :=
  fun s => (s, r).

Definition test_database_body (db : option Database) (getenv : string -> option string)
  : M Exception dict dict :=
  try_except
    (match db with
     | Some d =>
         set_item "database" (VStr "✅ Available") ;;;
         set_item "database_url" (VStr "✅ Configured") ;;;
         nm <- name_or_default d ;;
         set_item "database_name" nm ;;;
         set_item "connection_status" (VStr "Connected") ;;;
         try_except
           (collections <- call (list_collection_names d) ;;
            set_item "collections" (VList (map VStr (firstn 10 collections))) ;;;
            set_item "database" (VStr "✅ Connected & Working"))
           (fun e =>
              set_item "database"
                (VStr ("⚠️  Connected but Error: " +:+ slice_to 50 (exc_str e))))
     | None =>
         set_item "database" (VStr "⚠️  Available but not initialized")
     end)
    (fun e => set_item "database" (VStr ("❌ Error: " +:+ slice_to 50 (exc_str e)))) ;;;
  set_item "database_url"
    (VStr (if truthy (getenv "DATABASE_URL") then "✅ Set" else "❌ Not Set")) ;;;
  set_item "database_name"
    (VStr (if truthy (getenv "DATABASE_NAME") then "✅ Set" else "❌ Not Set")) ;;;
  get.

Definition test_database (db : option Database) (getenv : string -> option string)
  : result Exception dict :=
  snd (test_database_body db getenv initial_response).

End Handlers.

(** ** Predicates the properties are stated with *)

(** The records a run of calls inserted into a collection, in order. *)
Fixpoint inserted (coll : string) (evs : list Event) : list dict :=
  match evs with
  | [] => []
  | Insert c r :: evs' =>
      if String.eqb c coll then r :: inserted coll evs' else inserted coll evs'
  | _ :: evs' => inserted coll evs'
  end.

(** The database after the records were inserted one after the other. *)
Definition insert_all (d : Database) (coll : string) (records : list dict) : Database :=
  fold_left (fun d r => insert_one d coll r) records d.

(** The documents the store keeps for records inserted from identifier [n]
    on. *)
Fixpoint stored_docs (n : N) (records : list dict) : list dict :=
  match records with
  | [] => []
  | r :: rs => (("_id", VObjectId (mkObjectId n)) :: r) :: stored_docs (N.succ n) rs
  end.

(** The records one run inserts into a collection: the seed records when the
    collection is empty, none otherwise. *)
Definition seed_if_empty (d : Database) (coll : string) (records : list dict) : list dict :=
  if Nat.eqb (length (documents d coll)) 0 then records else [].

(** The keys the seed categories have. *)
Definition seeded_keys : list string := ["icloud"; "frp"; "screen-lock"; "bootloop"].

(** The value is an ObjectId, or a list with an ObjectId among its elements. *)
Definition holds_identifier (v : value) : bool :=
  match v with
  | VObjectId _ => true
  | VList l => existsb is_ObjectId l
  | _ => false
  end.

(** No field of the record holds an ObjectId, as its value or in its list. *)
Definition no_identifier_field (d : dict) : bool :=
  forallb (fun kv => negb (holds_identifier (snd kv))) d.

(** No field of the record holds a datetime. *)
Definition no_timestamp_field (d : dict) : bool :=
  forallb (fun kv => negb (is_datetime (snd kv))) d.

(** A value the serializer writes back as it is: not a datetime, and not a
    list with an ObjectId among its elements. *)
Definition passes_through (v : value) : bool :=
  match v with
  | VDatetime _ => false
  | VList l => forallb (fun x => negb (is_ObjectId x)) l
  | _ => true
  end.

(** The shape of what the serializer returns: each key once, no ["_id"], and
    only values that pass through. *)
Definition serialized (d : dict) : Prop :=
  wf_dict d /\ ~ In "_id" (keys d) /\ Forall (fun kv => passes_through (snd kv) = true) d.

(** The name a field is served under: ["_id"] becomes ["id"]. *)
Definition served_name (k : string) : string :=
  if String.eqb k "_id" then "id" else k.

(** A record with nothing for the serializer to convert or rename: each key
    once, no ["_id"] and no ["id"], and only values that pass through. *)
Definition plain (r : dict) : Prop :=
  wf_dict r /\ dict_get "_id" r = None /\ dict_get "id" r = None
  /\ forallb (fun kv => passes_through (snd kv)) r = true.

(** [q] is the first [n] characters of [m], all of [m] when it has fewer:
    [m] is [q] followed by a rest, [q] has [n] characters or as many as [m]
    has, and the rest starts at a character, not inside one. *)
Definition first_chars (n : nat) (m q : string) : Prop :=
  exists rest,
    m = q +:+ rest
    /\ py_len q = Nat.min n (py_len m)
    /\ match rest with
       | EmptyString => True
       | String c _ => is_continuation c = false
       end.

(** The keys of the diagnostic report. *)
Definition report_keys : list string :=
  ["backend"; "database"; "database_url"; "database_name"; "connection_status";
   "collections"].

(** A rendering of values used where an example needs the runtime to be
    fixed: a string is its own [str], an ObjectId is shown by the digits of
    its number (a stand-in for the 24 hexadecimal digits). *)
Definition example_str (v : value) : string :=
  match v with
  | VStr s => s
  | VObjectId o => pretty (oid o)
  | _ => ""
  end.

Definition example_isoformat (t : datetime) : string :=
  pretty (year t) +:+ "-" +:+ pretty (month t) +:+ "-" +:+ pretty (day t).

(** Stores and records for the examples. *)
Definition empty_store : Database :=
  {| name := AttrValue (VStr "repair"); fault := None; collections := ∅; next_id := 0 |}.

Definition store_with_category : Database :=
  {| name := AttrValue (VStr "repair");
     fault := None;
     collections :=
       {[ "issuecategory" :=
            [ [("_id", VObjectId (mkObjectId 0)); ("key", VStr "water-damage");
               ("title", VStr "Water damage")] ] ]};
     next_id := 1 |}.

Definition guide_icloud : dict :=
  [("_id", VObjectId (mkObjectId 0)); ("title", VStr "Check Activation Lock Status");
   ("category_key", VStr "icloud")].

Definition guide_frp : dict :=
  [("_id", VObjectId (mkObjectId 1)); ("title", VStr "FRP Removal Preparation");
   ("category_key", VStr "frp")].

Definition guide_unfiled : dict :=
  [("_id", VObjectId (mkObjectId 2)); ("title", VStr "Unfiled"); ("category_key", VStr "")].

Definition store_with_guides : Database :=
  {| name := AttrValue (VStr "repair");
     fault := None;
     collections := {[ "solutionguide" := [guide_icloud; guide_frp; guide_unfiled] ]};
     next_id := 3 |}.

Definition store_with_12_collections : Database :=
  {| name := AttrValue (VStr "repair");
     fault := None;
     collections :=
       list_to_map
         (map (fun c => (c, []))
            ["a"; "b"; "c"; "d"; "e"; "f"; "g"; "h"; "i"; "j"; "k"; "l"]);
     next_id := 0 |}.

Definition no_env (_ : string) : option string := None.

Definition env_blank_url (k : string) : option string :=
  if String.eqb k "DATABASE_URL" then Some ""
  else if String.eqb k "DATABASE_NAME" then Some "repair"
  else None.

Definition unreachable_store : Database :=
  {| name := AttrValue (VStr "repair");
     fault := Some (Exc "connection refused");
     collections := ∅;
     next_id := 0 |}.

Definition example_request : ServiceRequest :=
  {| sr_name := "Ada"; email := "ada@example.com"; phone := None;
     device_model := Some "Pixel 3"; issue_category := Some "frp";
     issue_description := None; urgent := true |}.

Definition example_time : datetime :=
  {| year := 2024; month := 5; day := 17; hour := 9; minute := 30; second := 0;
     microsecond := 0 |}.

Definition dated_record : dict :=
  [("_id", VObjectId (mkObjectId 9)); ("created_at", VDatetime example_time);
   ("refs", VList [VObjectId (mkObjectId 3); VStr "x"; VDatetime example_time])].

Definition colliding_record : dict :=
  [("_id", VObjectId (mkObjectId 9)); ("name", VStr "Ada"); ("id", VStr "mine")].

Definition plain_record : dict :=
  [("key", VStr "icloud"); ("title", VStr "iCloud/Activation Lock");
   ("description", VNone); ("tags", VList [VStr "apple"; VInt 3])].

Definition stored_category : dict :=
  [("_id", VObjectId (mkObjectId 5)); ("key", VStr "frp");
   ("title", VStr "FRP (Factory Reset Protection)")].

(** Each key once, for a dict that is written out. *)
Ltac wf_dict_by_cases :=
  unfold wf_dict, keys; simpl;
  repeat (constructor; [simpl; intuition discriminate |]); constructor.

(** ** Characters *)

Example slice_emoji : slice_to 3 "✅ Running" = "✅ R".
Proof. reflexivity. Qed.

Example len_emoji : py_len "✅ Running" = 9.
Proof. reflexivity. Qed.

Lemma py_len_slice_to (n : nat) (s : string) : py_len (slice_to n s) <= n.
Proof.
  revert n. induction s as [| c s IH]; intros n; simpl; [lia |].
  destruct (is_continuation c) eqn:Hc; simpl; rewrite ?Hc.
  - apply IH.
  - destruct n as [| n]; simpl; rewrite ?Hc; [lia |].
    specialize (IH n). lia.
Qed.

Lemma slice_to_prefix (n : nat) (s : string) : String.prefix (slice_to n s) s = true.
Proof.
  revert n. induction s as [| c s IH]; intros n; simpl; [reflexivity |].
  destruct (is_continuation c).
  - simpl. destruct (ascii_dec c c); [apply IH | congruence].
  - destruct n; simpl; [reflexivity |].
    destruct (ascii_dec c c); [apply IH | congruence].
Qed.

Lemma slice_to_first_chars (n : nat) (s : string) : first_chars n s (slice_to n s).
Proof.
  unfold first_chars. revert n. induction s as [| c s IH]; intros n.
  - exists EmptyString. simpl. split; [reflexivity |]. split; [lia | exact I].
  - simpl. destruct (is_continuation c) eqn:Hc.
    + destruct (IH n) as (rest & Hs & Hlen & Hrest). exists rest.
      split; [rewrite Hs at 1; reflexivity |]. split; [simpl; now rewrite Hc | exact Hrest].
    + destruct n as [| n].
      * exists (String c s). split; [reflexivity |]. split; [reflexivity | exact Hc].
      * destruct (IH n) as (rest & Hs & Hlen & Hrest). exists rest.
        split; [rewrite Hs at 1; reflexivity |].
        split; [simpl; rewrite Hc, Hlen; reflexivity | exact Hrest].
Qed.

(** ** Dicts *)

Lemma dict_get_set (k k' : string) (v : value) (d : dict) :
  dict_get k (dict_set k' v d) = if String.eqb k k' then Some v else dict_get k d.
Proof.
  induction d as [| [k0 v0] d IH]; simpl.
  - reflexivity.
  - destruct (String.eqb_spec k' k0) as [-> | Hne]; simpl.
    + destruct (String.eqb k k0); reflexivity.
    + rewrite IH. destruct (String.eqb_spec k k0) as [-> | Hne'].
      * destruct (String.eqb_spec k0 k'); [congruence | reflexivity].
      * reflexivity.
Qed.

Lemma dict_set_fresh (k : string) (v : value) (d : dict) :
  ~ In k (keys d) -> dict_set k v d = d ++ [(k, v)].
Proof.
  induction d as [| [k0 v0] d IH]; simpl; intros Hk.
  - reflexivity.
  - destruct (String.eqb_spec k k0) as [-> | Hne].
    + exfalso. apply Hk. now left.
    + rewrite IH; [reflexivity |]. intros Hin. apply Hk. now right.
Qed.

Lemma in_keys_dict_set (k k' : string) (v : value) (d : dict) :
  In k' (keys (dict_set k v d)) <-> k' = k \/ In k' (keys d).
Proof.
  induction d as [| [k0 v0] d IH]; simpl.
  - intuition.
  - destruct (String.eqb_spec k k0) as [-> | Hne]; simpl.
    + intuition.
    + rewrite IH. intuition.
Qed.

Lemma wf_dict_set (k : string) (v : value) (d : dict) :
  wf_dict d -> wf_dict (dict_set k v d).
Proof.
  unfold wf_dict. induction d as [| [k0 v0] d IH]; simpl; intros Hd.
  - constructor; [intros [] | constructor].
  - inversion Hd as [| ? ? Hnotin Hd']; subst.
    destruct (String.eqb_spec k k0) as [-> | Hne]; simpl.
    + now constructor.
    + constructor; [| now apply IH].
      intros Hin. apply in_keys_dict_set in Hin as [-> | Hin]; [congruence | contradiction].
Qed.

Lemma Forall_dict_set (P : string * value -> Prop) (k : string) (v : value) (d : dict) :
  P (k, v) -> Forall P d -> Forall P (dict_set k v d).
Proof.
  intros Hkv. induction d as [| [k0 v0] d IH]; simpl; intros Hd.
  - now constructor.
  - inversion Hd; subst.
    destruct (String.eqb k k0); constructor; auto.
Qed.

Lemma dict_get_In (k : string) (v : value) (d : dict) :
  dict_get k d = Some v -> In (k, v) d.
Proof.
  induction d as [| [k0 v0] d IH]; simpl; [discriminate |].
  destruct (String.eqb_spec k k0) as [-> | Hne].
  - intros [= ->]. now left.
  - intros H. right. now apply IH.
Qed.

Lemma dict_get_None (k : string) (d : dict) :
  dict_get k d = None <-> ~ In k (keys d).
Proof.
  induction d as [| [k0 v0] d IH]; simpl.
  - intuition.
  - destruct (String.eqb_spec k k0) as [-> | Hne].
    + split; [discriminate | intros H; exfalso; apply H; now left].
    + rewrite IH. intuition.
Qed.

(** ** The serializer *)

Lemma passes_through_plain (v : value) :
  negb (holds_identifier v) = true -> negb (is_datetime v) = true ->
  passes_through v = true.
Proof.
  destruct v; simpl; try reflexivity; try discriminate.
  intros Hl _. induction l as [| x l IH]; simpl in *; [reflexivity |].
  apply negb_true_iff, orb_false_iff in Hl as [Hx Hl].
  rewrite Hx. simpl. apply IH. now rewrite Hl.
Qed.

Section Serializer.

Variable str : value -> string.
Variable isoformat : datetime -> string.


Lemma serialize_item_set (out : dict) (kv : string * value) :
  serialize_item str isoformat out kv = dict_set (out_key kv) (out_value str isoformat kv) out.
Proof.
  destruct kv as [k v]. unfold serialize_item, out_key, out_value. simpl.
  destruct (String.eqb k "_id"); [reflexivity |].
  destruct v; reflexivity.
Qed.

Lemma out_key_not_id (kv : string * value) : out_key kv <> "_id".
Proof.
  unfold out_key. destruct (String.eqb_spec (fst kv) "_id"); [discriminate | assumption].
Qed.

Lemma map_stringify_passes (l : list value) :
  forallb (fun x => negb (is_ObjectId x))
    (map (fun x => if is_ObjectId x then VStr (str x) else x) l) = true.
Proof.
  induction l as [| x l IH]; simpl; [reflexivity |].
  rewrite IH, andb_true_r. destruct (is_ObjectId x) eqn:Hx; simpl; [reflexivity |].
  now rewrite Hx.
Qed.

Lemma map_stringify_id (l : list value) :
  forallb (fun x => negb (is_ObjectId x)) l = true ->
  map (fun x => if is_ObjectId x then VStr (str x) else x) l = l.
Proof.
  induction l as [| x l IH]; simpl; [reflexivity |].
  intros [Hx Hl]%andb_true_iff. rewrite IH by assumption.
  destruct (is_ObjectId x); [discriminate | reflexivity].
Qed.

Lemma out_value_passes (kv : string * value) : passes_through (out_value str isoformat kv) = true.
Proof.
  unfold out_value. destruct (String.eqb (fst kv) "_id"); [reflexivity |].
  destruct (snd kv); simpl; try reflexivity. apply map_stringify_passes.
Qed.

Lemma out_passes_through (kv : string * value) :
  fst kv <> "_id" -> passes_through (snd kv) = true ->
  out_key kv = fst kv /\ out_value str isoformat kv = snd kv.
Proof.
  intros Hk Hv. unfold out_key, out_value.
  destruct (String.eqb_spec (fst kv) "_id"); [contradiction |].
  split; [reflexivity |].
  destruct (snd kv); simpl in *; try reflexivity; [discriminate |].
  now rewrite map_stringify_id.
Qed.

Lemma serialize_item_serialized (out : dict) (kv : string * value) :
  serialized out -> serialized (serialize_item str isoformat out kv).
Proof.
  intros (Hwf & Hid & Hall). rewrite serialize_item_set. repeat split.
  - now apply wf_dict_set.
  - intros [Heq | Hin]%in_keys_dict_set; [| contradiction].
    symmetry in Heq. now apply out_key_not_id in Heq.
  - apply Forall_dict_set; [apply out_value_passes | assumption].
Qed.

Lemma fold_serialized (l out : dict) :
  serialized out -> serialized (fold_left (serialize_item str isoformat) l out).
Proof.
  revert out. induction l as [| kv l IH]; intros out Hout; simpl; [assumption |].
  apply IH. now apply serialize_item_serialized.
Qed.

Lemma serialize_serialized (d : dict) : serialized (_serialize str isoformat d).
Proof.
  apply fold_serialized. repeat split.
  - constructor.
  - intros [].
  - constructor.
Qed.

(** Items that pass through, under keys not yet written, are appended. *)
Lemma fold_passes_through (l out : dict) :
  NoDup (keys out ++ keys l) ->
  ~ In "_id" (keys l) ->
  Forall (fun kv => passes_through (snd kv) = true) l ->
  fold_left (serialize_item str isoformat) l out = out ++ l.
Proof.
  revert out. induction l as [| kv l IH]; intros out Hnd Hid Hall; simpl.
  - now rewrite app_nil_r.
  - inversion Hall as [| ? ? Hkv Hl]; subst.
    assert (Hk : fst kv <> "_id") by (intros Heq; apply Hid; left; exact Heq).
    destruct (out_passes_through kv Hk Hkv) as [Hkey Hval].
    rewrite serialize_item_set, Hkey, Hval.
    simpl in Hnd. apply NoDup_remove in Hnd as [Hnd Hfresh].
    rewrite dict_set_fresh by (intros Hin; apply Hfresh, in_or_app; now left).
    rewrite IH.
    + rewrite <- app_assoc. destruct kv; reflexivity.
    + unfold keys. rewrite map_app. simpl. rewrite <- app_assoc. simpl.
      apply NoDup_Add with (a := fst kv) (l := map fst out ++ map fst l); [| split; assumption].
      apply Add_app.
    + intros Hin. apply Hid. now right.
    + assumption.
Qed.

(** What a key of the output holds: the value of the last item written
    under it. *)
Lemma get_fold_untouched (k : string) (l out : dict) :
  Forall (fun kv => out_key kv <> k) l ->
  dict_get k (fold_left (serialize_item str isoformat) l out) = dict_get k out.
Proof.
  revert out. induction l as [| kv l IH]; intros out Hall; simpl; [reflexivity |].
  inversion Hall as [| ? ? Hkv Hl]; subst.
  rewrite IH by assumption. rewrite serialize_item_set, dict_get_set.
  destruct (String.eqb_spec k (out_key kv)); [congruence | reflexivity].
Qed.

Lemma get_fold_last (k : string) (l1 l2 out : dict) (kv : string * value) :
  out_key kv = k ->
  Forall (fun kv' => out_key kv' <> k) l2 ->
  dict_get k (fold_left (serialize_item str isoformat) (l1 ++ kv :: l2) out) = Some (out_value str isoformat kv).
Proof.
  intros Hk Hl2. rewrite fold_left_app. simpl.
  rewrite get_fold_untouched by assumption.
  rewrite serialize_item_set, dict_get_set, Hk, String.eqb_refl. reflexivity.
Qed.

Lemma dict_get_split (k : string) (v : value) (d : dict) :
  wf_dict d -> dict_get k d = Some v ->
  exists l1 l2, d = l1 ++ (k, v) :: l2 /\ ~ In k (keys l2).
Proof.
  intros Hwf Hget. apply dict_get_In, in_split in Hget as (l1 & l2 & ->).
  exists l1, l2. split; [reflexivity |].
  unfold wf_dict, keys in Hwf. rewrite map_app in Hwf. simpl in Hwf.
  apply NoDup_remove_2 in Hwf. intros Hin. apply Hwf, in_or_app. now right.
Qed.

Lemma serialize_get_other (k : string) (v : value) (d : dict) :
  wf_dict d -> k <> "_id" -> k <> "id" ->
  dict_get k d = Some v ->
  dict_get k (_serialize str isoformat d) = Some (out_value str isoformat (k, v)).
Proof.
  intros Hwf Hk1 Hk2 Hget.
  destruct (dict_get_split _ _ _ Hwf Hget) as (l1 & l2 & -> & Hl2).
  unfold _serialize. apply get_fold_last.
  - unfold out_key. simpl.
    destruct (String.eqb_spec k "_id"); [contradiction | reflexivity].
  - apply Forall_forall. intros [k' v'] Hin. unfold out_key. simpl.
    assert (Hk' : In k' (keys l2)) by (apply in_map_iff; now exists (k', v')).
    destruct (String.eqb_spec k' "_id") as [-> | Hne]; [congruence |].
    intros ->. contradiction.
Qed.

(** C3. Serializing twice gives what serializing once gives: after one pass
    no key is ["_id"], no value is a datetime and no list holds an ObjectId,
    so the second pass writes every item back as it is; a string is never
    read again as an identifier or a timestamp. *)
Theorem serialize_idempotent (d : dict) :
  _serialize str isoformat (_serialize str isoformat d) = _serialize str isoformat d.
Proof.
  destruct (serialize_serialized d) as (Hwf & Hid & Hall).
  unfold _serialize at 1.
  rewrite fold_passes_through; auto.
Qed.

(** C4 (amended). A record with no field named ["_id"], no identifier among
    its values or in its lists, and no field holding a timestamp is returned
    as it is, field for field and in the same order. *)
Theorem serialize_identity (d : dict) :
  wf_dict d ->
  dict_get "_id" d = None ->
  no_identifier_field d = true ->
  no_timestamp_field d = true ->
  _serialize str isoformat d = d.
Proof.
  intros Hwf Hid Hnoid Hnots. unfold _serialize.
  rewrite fold_passes_through; auto.
  - now apply dict_get_None.
  - apply Forall_forall. intros kv Hin.
    unfold no_identifier_field, no_timestamp_field in *.
    rewrite forallb_forall in Hnoid, Hnots.
    apply passes_through_plain; [now apply Hnoid | now apply Hnots].
Qed.

(** C5 (amended). The field named ["_id"], where the store keeps the
    identifier of a document, is written under ["id"] with the string
    representation of its value, and no ["_id"] is left, when the record has
    no field ["id"] of its own. *)
Theorem serialize_id_field (d : dict) (v : value) :
  wf_dict d ->
  dict_get "_id" d = Some v ->
  dict_get "id" d = None ->
  dict_get "id" (_serialize str isoformat d) = Some (VStr (str v))
  /\ dict_get "_id" (_serialize str isoformat d) = None.
Proof.
  intros Hwf Hget Hnoid. split.
  - destruct (dict_get_split _ _ _ Hwf Hget) as (l1 & l2 & -> & Hl2).
    unfold _serialize.
    rewrite (get_fold_last "id"); [reflexivity | reflexivity |].
    apply Forall_forall. intros [k' v'] Hin. unfold out_key. simpl.
    apply dict_get_None in Hnoid.
    assert (Hk' : In k' (keys l2)) by (apply in_map_iff; now exists (k', v')).
    destruct (String.eqb_spec k' "_id") as [-> | Hne]; [contradiction |].
    intros ->. apply Hnoid. unfold keys. rewrite map_app. simpl.
    apply in_or_app. right. now right.
  - apply dict_get_None. now destruct (serialize_serialized d) as (_ & H & _).
Qed.

End Serializer.

(** ** The store *)

Lemma filter_matches_all (l : list dict) :
  filter (fun doc => matches [] doc) l = l.
Proof.
  induction l as [| doc l IH]; simpl; [reflexivity |].
  f_equal. exact IH.
Qed.

Lemma documents_insert_one (d : Database) (coll : string) (r : dict) :
  documents (insert_one d coll r) coll
  = documents d coll ++ [("_id", VObjectId (mkObjectId (next_id d))) :: r].
Proof.
  unfold documents at 1, insert_one. simpl. now rewrite lookup_insert_eq.
Qed.

Lemma documents_insert_one_ne (d : Database) (coll coll' : string) (r : dict) :
  coll <> coll' -> documents (insert_one d coll r) coll' = documents d coll'.
Proof.
  intros Hne. unfold documents, insert_one. simpl. now rewrite lookup_insert_ne.
Qed.

Lemma fault_insert_all (d : Database) (coll : string) (rs : list dict) :
  fault (insert_all d coll rs) = fault d.
Proof.
  revert d. induction rs as [| r rs IH]; intros d; simpl; [reflexivity |].
  unfold insert_all in *. simpl. now rewrite IH.
Qed.

Lemma documents_insert_all (d : Database) (coll : string) (rs : list dict) :
  documents (insert_all d coll rs) coll = documents d coll ++ stored_docs (next_id d) rs.
Proof.
  revert d. induction rs as [| r rs IH]; intros d; unfold insert_all in *; simpl.
  - now rewrite app_nil_r.
  - rewrite IH, documents_insert_one. simpl. now rewrite <- app_assoc.
Qed.

Lemma documents_insert_all_ne (d : Database) (coll coll' : string) (rs : list dict) :
  coll <> coll' -> documents (insert_all d coll rs) coll' = documents d coll'.
Proof.
  intros Hne. revert d. induction rs as [| r rs IH]; intros d; unfold insert_all in *; simpl.
  - reflexivity.
  - now rewrite IH, documents_insert_one_ne.
Qed.

Lemma inserted_app (coll : string) (evs evs' : list Event) :
  inserted coll (evs ++ evs') = inserted coll evs ++ inserted coll evs'.
Proof.
  induction evs as [| ev evs IH]; simpl; [reflexivity |].
  destruct ev; try assumption.
  destruct (String.eqb coll0 coll); simpl; now rewrite IH.
Qed.

Lemma inserted_same (coll : string) (rs : list dict) :
  inserted coll (map (Insert coll) rs) = rs.
Proof.
  induction rs as [| r rs IH]; simpl; [reflexivity |].
  now rewrite String.eqb_refl, IH.
Qed.

Lemma inserted_other (coll coll' : string) (rs : list dict) :
  coll <> coll' -> inserted coll' (map (Insert coll) rs) = [].
Proof.
  intros Hne. induction rs as [| r rs IH]; simpl; [reflexivity |].
  destruct (String.eqb_spec coll coll'); [contradiction | assumption].
Qed.

Lemma stored_docs_get (k : string) (n : N) (rs : list dict) :
  k <> "_id" ->
  map (dict_get k) (stored_docs n rs) = map (dict_get k) rs.
Proof.
  intros Hk. revert n. induction rs as [| r rs IH]; intros n; simpl; [reflexivity |].
  rewrite IH. destruct (String.eqb_spec k "_id"); [contradiction | reflexivity].
Qed.

(** ** The seeder *)

Section Seeder.

Variable str : value -> string.

Lemma count_documents_all (coll : string) (d : Database) (tr : list Event) :
  fault d = None ->
  count_documents coll [] {| db := Some d; calls := tr |}
  = ({| db := Some d; calls := tr ++ [Count coll []] |}, Ok (length (documents d coll))).
Proof.
  intros Hf. unfold count_documents. cbn [db]. rewrite Hf.
  now rewrite filter_matches_all.
Qed.

Lemma for_each_create {A} `{BaseModel A} (coll : string) (xs : list A)
    (d : Database) (tr : list Event) :
  fault d = None ->
  for_each xs (fun x => bind (create_document str coll x) (fun _ => ret tt))
    {| db := Some d; calls := tr |}
  = ({| db := Some (insert_all d coll (map model_dump xs));
        calls := tr ++ map (Insert coll) (map model_dump xs) |},
     Ok tt : result exn unit).
Proof.
  revert d tr. induction xs as [| x xs IH]; intros d tr Hf; simpl.
  - now rewrite app_nil_r.
  - unfold bind at 1. unfold bind at 1. unfold create_document. simpl. rewrite Hf.
    unfold ret at 1. rewrite IH by exact Hf.
    now rewrite <- app_assoc.
Qed.

(** The whole effect of a run on a store that can be reached. *)
Lemma seed_sample_data_run (d : Database) (tr : list Event) :
  fault d = None ->
  let cats := seed_if_empty d "issuecategory" (map model_dump seed_categories) in
  let guides := seed_if_empty d "solutionguide" (map model_dump seed_guides) in
  seed_sample_data str {| db := Some d; calls := tr |}
  = ({| db := Some (insert_all (insert_all d "issuecategory" cats) "solutionguide" guides);
        calls := tr ++ [Count "issuecategory" []] ++ map (Insert "issuecategory") cats
                    ++ [Count "solutionguide" []] ++ map (Insert "solutionguide") guides |},
     Ok [("message", VStr "Seed complete")]).
Proof.
  intros Hf cats guides.
  assert (Hg : documents (insert_all d "issuecategory" cats) "solutionguide"
               = documents d "solutionguide")
    by (apply documents_insert_all_ne; discriminate).
  assert (Hf' : fault (insert_all d "issuecategory" cats) = None)
    by (now rewrite fault_insert_all).
  unfold seed_sample_data. cbn [db].
  unfold bind at 1. rewrite count_documents_all by exact Hf.
  unfold bind at 1.
  assert (Hcats :
    (if Nat.eqb (length (documents d "issuecategory")) 0
     then for_each seed_categories
            (fun cat => bind (create_document str "issuecategory" cat) (fun _ => ret tt))
     else ret tt) {| db := Some d; calls := tr ++ [Count "issuecategory" []] |}
    = ({| db := Some (insert_all d "issuecategory" cats);
          calls := (tr ++ [Count "issuecategory" []]) ++ map (Insert "issuecategory") cats |},
       Ok tt : result exn unit)).
  { subst cats. unfold seed_if_empty.
    destruct (Nat.eqb (length (documents d "issuecategory")) 0).
    - now rewrite for_each_create.
    - unfold ret. simpl. now rewrite app_nil_r. }
  rewrite Hcats. clear Hcats.
  unfold bind at 1. rewrite count_documents_all by exact Hf'. rewrite Hg.
  unfold bind at 1.
  assert (Hguides :
    (if Nat.eqb (length (documents d "solutionguide")) 0
     then for_each seed_guides
            (fun g => bind (create_document str "solutionguide" g) (fun _ => ret tt))
     else ret tt)
      {| db := Some (insert_all d "issuecategory" cats);
         calls := ((tr ++ [Count "issuecategory" []]) ++ map (Insert "issuecategory") cats)
                    ++ [Count "solutionguide" []] |}
    = ({| db := Some (insert_all (insert_all d "issuecategory" cats) "solutionguide" guides);
          calls := (((tr ++ [Count "issuecategory" []]) ++ map (Insert "issuecategory") cats)
                      ++ [Count "solutionguide" []]) ++ map (Insert "solutionguide") guides |},
       Ok tt : result exn unit)).
  { subst guides. unfold seed_if_empty.
    destruct (Nat.eqb (length (documents d "solutionguide")) 0).
    - now rewrite for_each_create.
    - unfold ret. simpl. now rewrite app_nil_r. }
  rewrite Hguides. clear Hguides.
  unfold ret. rewrite <- !app_assoc. reflexivity.
Qed.

(** C1. On a store that can be reached, a run over an empty category
    collection inserts exactly the four categories, with keys [icloud],
    [frp], [screen-lock], [bootloop] in this order, and they are what the
    collection then holds; a run over a category collection that is not
    empty inserts no category and leaves the collection as it was. *)
Theorem seed_inserts_categories (d : Database) (tr : list Event) :
  fault d = None ->
  exists d' new,
    seed_sample_data str {| db := Some d; calls := tr |}
    = ({| db := Some d'; calls := tr ++ new |}, Ok [("message", VStr "Seed complete")])
    /\ (documents d "issuecategory" = [] ->
        length (inserted "issuecategory" new) = 4
        /\ map (dict_get "key") (inserted "issuecategory" new)
           = map (fun k => Some (VStr k)) seeded_keys
        /\ length (documents d' "issuecategory") = 4
        /\ map (dict_get "key") (documents d' "issuecategory")
           = map (fun k => Some (VStr k)) seeded_keys)
    /\ (documents d "issuecategory" <> [] ->
        inserted "issuecategory" new = []
        /\ documents d' "issuecategory" = documents d "issuecategory").
Proof.
  intros Hf. eexists. eexists. split; [apply seed_sample_data_run; exact Hf |].
  rewrite documents_insert_all_ne by discriminate.
  rewrite documents_insert_all.
  cbn [app inserted]. rewrite !inserted_app. cbn [app inserted].
  rewrite inserted_same, (inserted_other "solutionguide" "issuecategory") by discriminate.
  rewrite app_nil_r. unfold seed_if_empty at 1 2 3 4 5 6.
  split.
  - intros Hempty. rewrite Hempty. cbn [length Nat.eqb app].
    rewrite stored_docs_get by discriminate.
    repeat split; reflexivity.
  - intros Hne. destruct (documents d "issuecategory") as [| doc docs]; [contradiction |].
    cbn [length Nat.eqb stored_docs]. now rewrite app_nil_r.
Qed.

(** C2. On a store that can be reached, a run over an empty guide collection
    inserts exactly three guides, each with one of the four seeded category
    keys, and they are what the collection then holds; nothing is asked of
    the category collection, which may be empty or not. *)
Theorem seed_inserts_guides (d : Database) (tr : list Event) :
  fault d = None ->
  documents d "solutionguide" = [] ->
  exists d' new,
    seed_sample_data str {| db := Some d; calls := tr |}
    = ({| db := Some d'; calls := tr ++ new |}, Ok [("message", VStr "Seed complete")])
    /\ length (inserted "solutionguide" new) = 3
    /\ Forall (fun r => exists k, dict_get "category_key" r = Some (VStr k) /\ In k seeded_keys)
         (inserted "solutionguide" new)
    /\ length (documents d' "solutionguide") = 3
    /\ Forall (fun r => exists k, dict_get "category_key" r = Some (VStr k) /\ In k seeded_keys)
         (documents d' "solutionguide").
Proof.
  intros Hf Hempty. eexists. eexists. split; [apply seed_sample_data_run; exact Hf |].
  rewrite documents_insert_all.
  rewrite documents_insert_all_ne by discriminate.
  cbn [app inserted]. rewrite !inserted_app. cbn [app inserted].
  rewrite inserted_same, (inserted_other "issuecategory" "solutionguide") by discriminate.
  assert (Hguides : seed_if_empty d "solutionguide" (map model_dump seed_guides)
                    = map model_dump seed_guides)
    by (unfold seed_if_empty; now rewrite Hempty).
  rewrite !Hguides, Hempty. cbn [app].
  repeat split.
  - repeat (constructor; [eexists; split; [reflexivity | simpl; auto 10] |]). constructor.
  - simpl. repeat (constructor; [eexists; split; [reflexivity | simpl; auto 10] |]). constructor.
Qed.

(** C7. With the store handle never initialised the seed operation ends with
    the server error 500 at once: no call is made on the store, neither a
    count nor an insert, and there is still no store. *)
Theorem seed_store_uninitialised (tr : list Event) :
  seed_sample_data str {| db := None; calls := tr |}
  = ({| db := None; calls := tr |}, Raise (HTTPException 500 "Database not available")).
Proof. reflexivity. Qed.

End Seeder.

(** ** The guide listing *)

Lemma value_eqb_str (v : value) (s : string) :
  value_eqb v (VStr s) = true <-> v = VStr s.
Proof.
  destruct v; simpl; try (split; [discriminate | intros [=]]).
  destruct (String.eqb_spec s0 s) as [-> | Hne]; split; auto; try discriminate.
  intros [=]. contradiction.
Qed.

Lemma matches_category_key (K : string) (doc : dict) :
  matches [("category_key", VStr K)] doc = true
  <-> dict_get "category_key" doc = Some (VStr K).
Proof.
  unfold matches. cbn [forallb]. rewrite andb_true_r.
  destruct (dict_get "category_key" doc) as [v |].
  - rewrite value_eqb_str. split; [intros -> | intros [=]]; auto.
  - split; discriminate.
Qed.

Section Guides.

Variable str : value -> string.
Variable isoformat : datetime -> string.

Lemma get_documents_run (coll : string) (filt : dict) (d : Database) (tr : list Event) :
  fault d = None ->
  get_documents coll filt {| db := Some d; calls := tr |}
  = ({| db := Some d; calls := tr ++ [Find coll filt] |},
     Ok (filter (fun doc => matches filt doc) (documents d coll))).
Proof.
  intros Hf. unfold get_documents. cbn [db]. now rewrite Hf.
Qed.

(** C6 (amended). On a store that can be reached, a request with a
    [category_key] that is not the empty string returns the serialized
    guides whose [category_key] equals it, and only those, in the store's
    order; the field is still there after serialization; a request without
    the parameter returns every guide. *)
Theorem list_guides_filters (d : Database) (tr : list Event) (K : string) :
  fault d = None ->
  K <> "" ->
  let w := {| db := Some d; calls := tr |} in
  let selected := filter (fun doc => matches [("category_key", VStr K)] doc)
                    (documents d "solutionguide") in
  snd (list_guides str isoformat (Some K) w) = Ok (map (_serialize str isoformat) selected)
  /\ (forall doc, In doc selected <->
        In doc (documents d "solutionguide")
        /\ dict_get "category_key" doc = Some (VStr K))
  /\ (forall doc, In doc selected -> wf_dict doc ->
        dict_get "category_key" (_serialize str isoformat doc) = Some (VStr K))
  /\ snd (list_guides str isoformat None w)
     = Ok (map (_serialize str isoformat) (documents d "solutionguide")).
Proof.
  intros Hf HK w selected.
  assert (Hsel : forall doc, In doc selected <->
            In doc (documents d "solutionguide")
            /\ dict_get "category_key" doc = Some (VStr K)).
  { intros doc. subst selected. rewrite filter_In, matches_category_key. reflexivity. }
  repeat split.
  - unfold list_guides, truthy. cbn [opt_str].
    destruct (String.eqb_spec K "") as [-> | _]; [contradiction |]. cbn [negb].
    unfold bind. subst w. rewrite get_documents_run by exact Hf. reflexivity.
  - now apply Hsel.
  - now apply Hsel.
  - intros H. now apply Hsel.
  - intros doc Hin Hwf. apply Hsel in Hin as [_ Hget].
    rewrite (serialize_get_other str isoformat "category_key" (VStr K));
      [reflexivity | assumption | discriminate | discriminate | assumption].
  - unfold list_guides, truthy.
    unfold bind. subst w. rewrite get_documents_run by exact Hf.
    now rewrite filter_matches_all.
Qed.

(** C10. A [category_key] that is present and empty is handled as an absent
    one: the handler does the same in both cases, and on a store that can be
    reached it returns every guide. *)
Theorem list_guides_empty_key (w : World) :
  list_guides str isoformat (Some "") w = list_guides str isoformat None w
  /\ (forall d, db w = Some d -> fault d = None ->
        snd (list_guides str isoformat (Some "") w)
        = Ok (map (_serialize str isoformat) (documents d "solutionguide"))).
Proof.
  split; [reflexivity |].
  intros d Hd Hf. destruct w as [dbw tr]. simpl in Hd. subst dbw.
  unfold list_guides, truthy. cbn [String.eqb negb].
  unfold bind. rewrite get_documents_run by exact Hf.
  now rewrite filter_matches_all.
Qed.

End Guides.

(** ** The diagnostic endpoint *)

(** What the report says about the database, case by case. *)
Lemma test_database_cases (db : option Database) (getenv : string -> option string) :
  exists r status,
    test_database db getenv = Ok r
    /\ dict_get "database" r = Some (VStr status)
    /\ match db with
       | None => status = "⚠️  Available but not initialized"
       | Some d =>
           match name d, fault d with
           | AttrRaises e, _ => status = "❌ Error: " +:+ slice_to 50 (exc_str e)
           | _, Some e => status = "⚠️  Connected but Error: " +:+ slice_to 50 (exc_str e)
           | _, None => status = "✅ Connected & Working"
           end
       end.
Proof.
  destruct db as [[nm flt colls nid] |]; [| eexists; eexists; repeat split].
  destruct nm as [| v | e]; destruct flt as [e' |] ;
    eexists; eexists; repeat split.
Qed.

(** C8. The diagnostic endpoint returns a report whatever the store does: it
    never raises. Every check ends in a status string. The database entry
    tells how the check went: no handle, a name that cannot be read, a
    driver that fails, or a store that works; where a check failed the entry
    is the prefix of that check followed by the first 50 characters of the
    message of the exception that was raised there, the whole message when
    it is shorter. *)
Theorem test_database_never_raises (db : option Database) (getenv : string -> option string) :
  exists r status,
    test_database db getenv = Ok r
    /\ dict_get "database" r = Some (VStr status)
    /\ match db with
       | None => status = "⚠️  Available but not initialized"
       | Some d =>
           match name d, fault d with
           | AttrRaises e, _ =>
               exists q, first_chars 50 (exc_str e) q
                         /\ py_len q <= 50
                         /\ status = "❌ Error: " +:+ q
           | _, Some e =>
               exists q, first_chars 50 (exc_str e) q
                         /\ py_len q <= 50
                         /\ status = "⚠️  Connected but Error: " +:+ q
           | _, None => status = "✅ Connected & Working"
           end
       end
    /\ dict_get "backend" r = Some (VStr "✅ Running")
    /\ dict_get "database_url" r
       = Some (VStr (if truthy (getenv "DATABASE_URL") then "✅ Set" else "❌ Not Set"))
    /\ dict_get "database_name" r
       = Some (VStr (if truthy (getenv "DATABASE_NAME") then "✅ Set" else "❌ Not Set"))
    /\ dict_get "connection_status" r
       = Some (VStr (match db with
                     | None => "Not Connected"
                     | Some d => match name d with
                                 | AttrRaises _ => "Not Connected"
                                 | _ => "Connected"
                                 end
                     end)).
Proof.
  assert (Hquote : forall prefix e,
            exists q, first_chars 50 (exc_str e) q
                      /\ py_len q <= 50
                      /\ prefix +:+ slice_to 50 (exc_str e) = prefix +:+ q).
  { intros prefix e. exists (slice_to 50 (exc_str e)).
    split; [apply slice_to_first_chars |]. split; [apply py_len_slice_to | reflexivity]. }
  destruct db as [[nm flt colls nid] |].
  - destruct nm as [| v | e]; destruct flt as [e' |];
      eexists; eexists;
      (split; [reflexivity |]); (split; [reflexivity |]);
      (split; [| repeat split]);
      cbn [name fault];
      first [ reflexivity
            | exact (Hquote "❌ Error: " e)
            | exact (Hquote "⚠️  Connected but Error: " e') ].
  - eexists; eexists.
    (split; [reflexivity |]); (split; [reflexivity |]);
      (split; [reflexivity | repeat split]).
Qed.

(** C9. When the handle answers (its name can be read and the connection is
    not at fault), the report lists the first 10 collection names, and no
    more, however many collections the store has. *)
Theorem test_database_collections (d : Database) (getenv : string -> option string) :
  fault d = None ->
  (forall e, name d <> AttrRaises e) ->
  let names := map fst (map_to_list (collections d)) in
  exists r,
    test_database (Some d) getenv = Ok r
    /\ dict_get "collections" r = Some (VList (map VStr (firstn 10 names)))
    /\ length (firstn 10 names) <= 10
    /\ (10 <= length names -> length (firstn 10 names) = 10)
    /\ dict_get "database" r = Some (VStr "✅ Connected & Working").
Proof.
  intros Hf Hname names. destruct d as [nm flt colls nid]. simpl in Hf, Hname. subst flt.
  assert (Hlen : length (firstn 10 names) <= 10) by (rewrite length_firstn; lia).
  assert (Hfull : 10 <= length names -> length (firstn 10 names) = 10)
    by (rewrite length_firstn; lia).
  destruct nm as [| v | e]; [| | now destruct (Hname e)];
    eexists; repeat split; auto.
Qed.

(** ** The properties at concrete inputs *)


(** C4 as stated fails: a record whose ["_id"] is a string holds neither an
    identifier nor a timestamp, and is not returned as it is. *)
Lemma serialize_renames_string_id :
  let d := [("_id", VStr "abc")] in
  wf_dict d
  /\ no_identifier_field d = true
  /\ no_timestamp_field d = true
  /\ _serialize example_str example_isoformat d = [("id", VStr "abc")]
  /\ _serialize example_str example_isoformat d <> d.
Proof.
  repeat split; try reflexivity.
  - wf_dict_by_cases.
  - discriminate.
Qed.

Lemma serialize_identity_witness :
  wf_dict plain_record
  /\ dict_get "_id" plain_record = None
  /\ no_identifier_field plain_record = true
  /\ no_timestamp_field plain_record = true
  /\ _serialize example_str example_isoformat plain_record = plain_record.
Proof.
  assert (Hwf : wf_dict plain_record) by wf_dict_by_cases.
  split; [exact Hwf |]. split; [reflexivity |].
  split; [reflexivity |]. split; [reflexivity |].
  apply (serialize_identity example_str example_isoformat plain_record Hwf);
    reflexivity.
Defined.

(** C5 as stated fails: a field named [owner] that holds an ObjectId is
    neither renamed to ["id"] nor rendered as a string. *)
Lemma serialize_keeps_other_identifier :
  let d := [("owner", VObjectId (mkObjectId 7))] in
  In ("owner", VObjectId (mkObjectId 7)) d
  /\ dict_get "id" (_serialize example_str example_isoformat d) = None
  /\ dict_get "owner" (_serialize example_str example_isoformat d)
     = Some (VObjectId (mkObjectId 7)).
Proof.
  repeat split; try reflexivity. now left.
Qed.

Lemma serialize_id_field_witness :
  wf_dict stored_category
  /\ dict_get "_id" stored_category = Some (VObjectId (mkObjectId 5))
  /\ dict_get "id" stored_category = None
  /\ dict_get "id" (_serialize example_str example_isoformat stored_category)
     = Some (VStr "5")
  /\ dict_get "_id" (_serialize example_str example_isoformat stored_category) = None.
Proof.
  assert (Hwf : wf_dict stored_category) by wf_dict_by_cases.
  split; [exact Hwf |]. split; [reflexivity |]. split; [reflexivity |].
  exact (serialize_id_field example_str example_isoformat stored_category
           (VObjectId (mkObjectId 5)) Hwf eq_refl eq_refl).
Defined.

Lemma seed_inserts_categories_witness :
  fault empty_store = None
  /\ documents empty_store "issuecategory" = []
  /\ exists d' new,
       seed_sample_data example_str {| db := Some empty_store; calls := [] |}
       = ({| db := Some d'; calls := new |}, Ok [("message", VStr "Seed complete")])
       /\ length (inserted "issuecategory" new) = 4
       /\ map (dict_get "key") (documents d' "issuecategory")
          = map (fun k => Some (VStr k)) seeded_keys.
Proof.
  split; [reflexivity |]. split; [reflexivity |].
  destruct (seed_inserts_categories example_str empty_store [] eq_refl)
    as (d' & new & Hrun & Hempty & _).
  destruct (Hempty eq_refl) as (Hlen & _ & _ & Hkeys).
  exists d', new. repeat split; assumption.
Defined.

Lemma seed_inserts_guides_witness :
  fault store_with_category = None
  /\ documents store_with_category "solutionguide" = []
  /\ documents store_with_category "issuecategory" <> []
  /\ exists d' new,
       seed_sample_data example_str {| db := Some store_with_category; calls := [] |}
       = ({| db := Some d'; calls := new |}, Ok [("message", VStr "Seed complete")])
       /\ length (inserted "solutionguide" new) = 3
       /\ length (documents d' "solutionguide") = 3.
Proof.
  split; [reflexivity |]. split; [reflexivity |]. split; [discriminate |].
  destruct (seed_inserts_guides example_str store_with_category [] eq_refl eq_refl)
    as (d' & new & Hrun & Hlen & _ & Hlen' & _).
  exists d', new. repeat split; assumption.
Defined.

(** C6 as stated fails at the empty key: the request returns a guide whose
    [category_key] is [icloud]. *)
Lemma list_guides_empty_key_returns_icloud :
  snd (list_guides example_str example_isoformat (Some "")
         {| db := Some store_with_guides; calls := [] |})
  = Ok [ [("id", VStr "0"); ("title", VStr "Check Activation Lock Status");
          ("category_key", VStr "icloud")];
         [("id", VStr "1"); ("title", VStr "FRP Removal Preparation");
          ("category_key", VStr "frp")];
         [("id", VStr "2"); ("title", VStr "Unfiled"); ("category_key", VStr "")] ].
Proof. vm_compute. reflexivity. Qed.

Lemma list_guides_filters_witness :
  fault store_with_guides = None
  /\ "icloud" <> ""
  /\ snd (list_guides example_str example_isoformat (Some "icloud")
            {| db := Some store_with_guides; calls := [] |})
     = Ok [ [("id", VStr "0"); ("title", VStr "Check Activation Lock Status");
             ("category_key", VStr "icloud")] ].
Proof.
  split; [reflexivity |]. split; [discriminate |].
  destruct (list_guides_filters example_str example_isoformat store_with_guides []
              "icloud" eq_refl ltac:(discriminate)) as (Hsome & _).
  rewrite Hsome. vm_compute. reflexivity.
Defined.

Lemma list_guides_empty_key_witness :
  fault store_with_guides = None
  /\ snd (list_guides example_str example_isoformat (Some "")
            {| db := Some store_with_guides; calls := [] |})
     = Ok (map (_serialize example_str example_isoformat)
             [guide_icloud; guide_frp; guide_unfiled]).
Proof.
  split; [reflexivity |].
  destruct (list_guides_empty_key example_str example_isoformat
              {| db := Some store_with_guides; calls := [] |}) as (_ & Hall).
  rewrite (Hall store_with_guides eq_refl eq_refl). reflexivity.
Defined.

Lemma test_database_collections_witness :
  fault store_with_12_collections = None
  /\ (forall e, name store_with_12_collections <> AttrRaises e)
  /\ length (map fst (map_to_list (collections store_with_12_collections))) = 12
  /\ exists r l,
       test_database (Some store_with_12_collections) no_env = Ok r
       /\ dict_get "collections" r = Some (VList l)
       /\ length l = 10.
Proof.
  split; [reflexivity |]. split; [discriminate |]. split; [vm_compute; reflexivity |].
  destruct (test_database_collections store_with_12_collections no_env eq_refl
              ltac:(discriminate)) as (r & Hrun & Hcolls & _ & Hfull & _).
  exists r. eexists. split; [exact Hrun |]. split; [exact Hcolls |].
  rewrite length_map. apply Hfull. vm_compute. lia.
Defined.

(** ** More on the serializer *)

Lemma length_dict_set (k : string) (v : value) (d : dict) :
  length (dict_set k v d) <= S (length d).
Proof.
  induction d as [| [k0 v0] d IH]; simpl; [lia |].
  destruct (String.eqb k k0); simpl; lia.
Qed.

Lemma served_name_injective (d : dict) :
  dict_get "_id" d = None \/ dict_get "id" d = None ->
  ForallPairs (fun a b => served_name a = served_name b -> a = b) (keys d).
Proof.
  intros Hone a b Ha Hb. unfold served_name.
  destruct (String.eqb_spec a "_id") as [-> | Hna];
    destruct (String.eqb_spec b "_id") as [-> | Hnb]; auto.
  - intros <-. exfalso. destruct Hone as [H | H]; apply dict_get_None in H; auto.
  - intros ->. exfalso. destruct Hone as [H | H]; apply dict_get_None in H; auto.
Qed.

Section SerializerShape.

Variable str : value -> string.
Variable isoformat : datetime -> string.

Lemma length_fold_serialize (l out : dict) :
  length (fold_left (serialize_item str isoformat) l out) <= length out + length l.
Proof.
  revert out. induction l as [| kv l IH]; intros out; simpl; [lia |].
  specialize (IH (serialize_item str isoformat out kv)).
  rewrite serialize_item_set in IH.
  pose proof (length_dict_set (out_key kv) (out_value str isoformat kv) out).
  rewrite serialize_item_set. lia.
Qed.

(** Items written under names not yet used are appended, converted. *)
Lemma fold_no_collision (l out : dict) :
  NoDup (keys out ++ map out_key l) ->
  fold_left (serialize_item str isoformat) l out
  = out ++ map (fun kv => (out_key kv, out_value str isoformat kv)) l.
Proof.
  revert out. induction l as [| kv l IH]; intros out Hnd; simpl.
  - now rewrite app_nil_r.
  - rewrite serialize_item_set.
    simpl in Hnd. pose proof Hnd as Hnd'. apply NoDup_remove in Hnd' as [_ Hfresh].
    rewrite dict_set_fresh by (intros Hin; apply Hfresh, in_or_app; now left).
    rewrite IH.
    + now rewrite <- app_assoc.
    + unfold keys. rewrite map_app. simpl. rewrite <- app_assoc. exact Hnd.
Qed.

(** X1. Whatever the record, the output has each key once, has no ["_id"],
    holds no datetime and no list with an ObjectId in it, and has no more
    fields than the input. *)
Theorem serialize_output_shape (d : dict) :
  wf_dict (_serialize str isoformat d)
  /\ dict_get "_id" (_serialize str isoformat d) = None
  /\ (forall k v, In (k, v) (_serialize str isoformat d) ->
        is_datetime v = false
        /\ forall l, v = VList l -> existsb is_ObjectId l = false)
  /\ length (_serialize str isoformat d) <= length d.
Proof.
  destruct (serialize_serialized str isoformat d) as (Hwf & Hid & Hall).
  split; [exact Hwf |]. split; [now apply dict_get_None |]. split.
  - intros k v Hin. rewrite Forall_forall in Hall. specialize (Hall _ Hin). simpl in Hall.
    split; [destruct v; simpl in *; congruence |].
    intros l ->. simpl in Hall. clear Hin.
    induction l as [| x l IH]; simpl in *; [reflexivity |].
    apply andb_true_iff in Hall as [Hx Hl]. apply negb_true_iff in Hx.
    rewrite Hx. now apply IH.
  - unfold _serialize. apply (length_fold_serialize d []).
Qed.

(** X2. A field that holds a datetime, under a name other than ["_id"] and
    ["id"], comes out under the same name as the ISO string of the datetime. *)
Theorem serialize_datetime_field (d : dict) (k : string) (t : datetime) :
  wf_dict d -> k <> "_id" -> k <> "id" ->
  dict_get k d = Some (VDatetime t) ->
  dict_get k (_serialize str isoformat d) = Some (VStr (isoformat t)).
Proof.
  intros Hwf Hk1 Hk2 Hget.
  rewrite (serialize_get_other str isoformat k (VDatetime t)) by assumption.
  unfold out_value. simpl.
  destruct (String.eqb_spec k "_id"); [contradiction | reflexivity].
Qed.

(** X3. A field that holds a list, under a name other than ["_id"] and
    ["id"], comes out as a list of the same length: an ObjectId element is
    replaced by its string, every other element (a datetime too) is kept. *)
Theorem serialize_list_field (d : dict) (k : string) (l : list value) :
  wf_dict d -> k <> "_id" -> k <> "id" ->
  dict_get k d = Some (VList l) ->
  exists l',
    dict_get k (_serialize str isoformat d) = Some (VList l')
    /\ length l' = length l
    /\ forall i x, nth_error l i = Some x ->
         nth_error l' i = Some (if is_ObjectId x then VStr (str x) else x).
Proof.
  intros Hwf Hk1 Hk2 Hget.
  exists (map (fun x => if is_ObjectId x then VStr (str x) else x) l).
  split; [| split].
  - rewrite (serialize_get_other str isoformat k (VList l)) by assumption.
    unfold out_value. simpl.
    destruct (String.eqb_spec k "_id"); [contradiction | reflexivity].
  - apply length_map.
  - intros i x Hi. now rewrite nth_error_map, Hi.
Qed.

(** X4. When a record does not have both an ["_id"] and an ["id"], the
    output has one field for each field of the record, in the same order:
    the field's name with ["_id"] turned into ["id"], and its converted
    value. *)
Theorem serialize_without_collision (d : dict) :
  wf_dict d ->
  dict_get "_id" d = None \/ dict_get "id" d = None ->
  _serialize str isoformat d
  = map (fun kv => (served_name (fst kv), out_value str isoformat kv)) d
  /\ keys (_serialize str isoformat d) = map served_name (keys d).
Proof.
  intros Hwf Hone.
  assert (Heq : _serialize str isoformat d
                = map (fun kv => (served_name (fst kv), out_value str isoformat kv)) d).
  { unfold _serialize. rewrite fold_no_collision; [reflexivity |].
    simpl. change (map out_key d) with (map (fun kv => served_name (fst kv)) d).
    rewrite <- (map_map fst served_name).
    apply NoDup_map_NoDup_ForallPairs; [now apply served_name_injective | exact Hwf]. }
  split; [exact Heq |].
  rewrite Heq. unfold keys. rewrite !map_map. reflexivity.
Qed.

(** X5. When a record has both an ["_id"] and an ["id"], the two are written
    under the one name ["id"], and the output holds the one that comes later
    in the record: an ["id"] after the ["_id"] replaces the identifier of the
    store. *)
Theorem serialize_id_collision (l1 l2 l3 : dict) (a b : string * value) :
  wf_dict (l1 ++ a :: l2 ++ b :: l3) ->
  served_name (fst a) = "id" ->
  served_name (fst b) = "id" ->
  dict_get "id" (_serialize str isoformat (l1 ++ a :: l2 ++ b :: l3))
  = Some (out_value str isoformat b).
Proof.
  intros Hwf Ha Hb.
  replace (l1 ++ a :: l2 ++ b :: l3) with ((l1 ++ a :: l2) ++ b :: l3) in *
    by (rewrite <- app_assoc; reflexivity).
  unfold _serialize. apply get_fold_last; [exact Hb |].
  apply Forall_forall. intros c Hc Hcid.
  change (out_key c) with (served_name (fst c)) in Hcid.
  unfold wf_dict, keys in Hwf. rewrite !map_app in Hwf. simpl in Hwf.
  rewrite <- app_assoc in Hwf. simpl in Hwf.
  assert (Hcin : In (fst c) (map fst l3)) by now apply in_map.
  (* the three names are "_id" or "id", and each key occurs once *)
  assert (Hab : fst a <> fst b).
  { intros Heq. apply NoDup_remove_2 in Hwf. apply Hwf, in_or_app. right.
    apply in_or_app. right. left. now symmetry. }
  assert (Hbc : fst b <> fst c).
  { intros Heq. apply NoDup_app_remove_l in Hwf. inversion Hwf as [| ? ? _ Hwf']; subst.
    apply NoDup_remove_2 in Hwf'. apply Hwf', in_or_app. right. now rewrite Heq. }
  assert (Hac : fst a <> fst c).
  { intros Heq. apply NoDup_remove_2 in Hwf. apply Hwf, in_or_app. right.
    apply in_or_app. right. right. now rewrite Heq. }
  unfold served_name in Ha, Hb, Hcid.
  destruct (String.eqb_spec (fst a) "_id"), (String.eqb_spec (fst b) "_id"),
    (String.eqb_spec (fst c) "_id"); congruence.
Qed.

End SerializerShape.

(** ** Records of the schemas, stored and served *)

Lemma forallb_passes_VStr (l : list string) :
  forallb (fun x => negb (is_ObjectId x)) (map VStr l) = true.
Proof. induction l as [| x l IH]; simpl; [reflexivity | exact IH]. Qed.

Lemma forallb_passes_VDict (l : list SolutionStep) :
  forallb (fun x => negb (is_ObjectId x)) (map (fun s => VDict (model_dump s)) l) = true.
Proof. induction l as [| x l IH]; simpl; [reflexivity | exact IH]. Qed.

Lemma passes_opt_str (o : option string) : passes_through (opt_str o) = true.
Proof. destruct o; reflexivity. Qed.

Lemma IssueCategory_plain (c : IssueCategory) : plain (model_dump c).
Proof.
  repeat split; try reflexivity; [wf_dict_by_cases |].
  unfold model_dump, IssueCategory_model. simpl.
  now rewrite !passes_opt_str.
Qed.

Lemma SolutionGuide_plain (g : SolutionGuide) : plain (model_dump g).
Proof.
  repeat split; try reflexivity; [wf_dict_by_cases |].
  unfold model_dump at 1, SolutionGuide_model. simpl.
  now rewrite !passes_opt_str, forallb_passes_VStr, forallb_passes_VDict.
Qed.

Lemma ServiceRequest_plain (r : ServiceRequest) : plain (model_dump r).
Proof.
  repeat split; try reflexivity; [wf_dict_by_cases |].
  unfold model_dump, ServiceRequest_model. simpl.
  now rewrite !passes_opt_str.
Qed.

Lemma length_stored_docs (n : N) (rs : list dict) :
  length (stored_docs n rs) = length rs.
Proof.
  revert n. induction rs as [| r rs IH]; intros n; simpl; [reflexivity | now rewrite IH].
Qed.

Lemma length_filter_le {A} (f : A -> bool) (l : list A) :
  length (filter f l) <= length l.
Proof.
  induction l as [| x l IH]; simpl; [lia |].
  destruct (f x); simpl; lia.
Qed.

Section Stored.

Variable str : value -> string.
Variable isoformat : datetime -> string.

(** A plain record, stored by the store under a new identifier, is served as
    the record with the identifier in front. *)
Lemma serialize_stored (o : ObjectId) (r : dict) :
  plain r ->
  _serialize str isoformat (("_id", VObjectId o) :: r)
  = ("id", VStr (str (VObjectId o))) :: r.
Proof.
  intros (Hwf & Hnoid & Hnoid' & Hall). unfold _serialize. simpl.
  rewrite fold_passes_through; [reflexivity | | now apply dict_get_None |].
  - simpl. constructor; [now apply dict_get_None | exact Hwf].
  - apply Forall_forall. intros kv Hin. rewrite forallb_forall in Hall. now apply Hall.
Qed.

Lemma serialize_stored_docs (n : N) (rs : list dict) :
  Forall plain rs ->
  map (_serialize str isoformat) (stored_docs n rs) = served_docs str n rs.
Proof.
  intros Hall. revert n. induction Hall as [| r rs Hr Hrs IH]; intros n; simpl.
  - reflexivity.
  - now rewrite serialize_stored, IH.
Qed.

End Stored.

(** ** More on the seeder *)

Lemma seed_if_empty_nonempty (d : Database) (coll : string) (rs : list dict) :
  documents d coll <> [] -> seed_if_empty d coll rs = [].
Proof.
  intros Hne. unfold seed_if_empty.
  destruct (documents d coll); [contradiction | reflexivity].
Qed.

Lemma app_seed_nonempty (d : Database) (coll : string) (n : N) (rs : list dict) :
  rs <> [] -> documents d coll ++ stored_docs n (seed_if_empty d coll rs) <> [].
Proof.
  intros Hrs. unfold seed_if_empty.
  destruct (documents d coll) as [| doc docs]; [| discriminate].
  destruct rs; [contradiction | discriminate].
Qed.

Section SeederRuns.

Variable str : value -> string.
Variable isoformat : datetime -> string.

(** X6. On a store that can be reached a second run does nothing but count:
    after any run both collections hold something, so the next run inserts
    no record and leaves the database as the first run left it. *)
Theorem seed_twice (d : Database) (tr : list Event) :
  fault d = None ->
  exists d1 tr1,
    seed_sample_data str {| db := Some d; calls := tr |}
    = ({| db := Some d1; calls := tr1 |}, Ok [("message", VStr "Seed complete")])
    /\ seed_sample_data str {| db := Some d1; calls := tr1 |}
       = ({| db := Some d1;
             calls := tr1 ++ [Count "issuecategory" []; Count "solutionguide" []] |},
          Ok [("message", VStr "Seed complete")]).
Proof.
  intros Hf. eexists. eexists. split; [apply seed_sample_data_run; exact Hf |].
  set (cats := seed_if_empty d "issuecategory" (map model_dump seed_categories)).
  set (guides := seed_if_empty d "solutionguide" (map model_dump seed_guides)).
  set (d1 := insert_all (insert_all d "issuecategory" cats) "solutionguide" guides).
  assert (Hf1 : fault d1 = None) by (subst d1; now rewrite !fault_insert_all).
  assert (Hcats : documents d1 "issuecategory" <> []).
  { subst d1. rewrite documents_insert_all_ne by discriminate.
    rewrite documents_insert_all. apply app_seed_nonempty. discriminate. }
  assert (Hguides : documents d1 "solutionguide" <> []).
  { subst d1. rewrite documents_insert_all.
    rewrite documents_insert_all_ne by discriminate.
    apply app_seed_nonempty. discriminate. }
  rewrite (seed_sample_data_run str d1 _ Hf1).
  rewrite !seed_if_empty_nonempty by assumption.
  cbn [insert_all fold_left map app]. rewrite <- !app_assoc. reflexivity.
Qed.

(** X7. A run only adds: on a store that can be reached every collection
    holds afterwards the documents it held before, each as often as before,
    together with what the run added, whatever order the store keeps them
    in; a collection other than the two seeded ones is as it was. *)
Theorem seed_appends (d : Database) (tr : list Event) :
  fault d = None ->
  exists d' tr',
    seed_sample_data str {| db := Some d; calls := tr |}
    = ({| db := Some d'; calls := tr' |}, Ok [("message", VStr "Seed complete")])
    /\ fault d' = None
    /\ forall coll, exists added,
         Permutation (documents d' coll) (documents d coll ++ added)
         /\ (coll <> "issuecategory" -> coll <> "solutionguide" ->
             added = [] /\ documents d' coll = documents d coll).
Proof.
  intros Hf. eexists. eexists. split; [apply seed_sample_data_run; exact Hf |].
  split; [now rewrite !fault_insert_all |].
  intros coll.
  destruct (String.eqb_spec coll "issuecategory") as [-> | Hc].
  - eexists. split; [| intros H; now destruct H].
    rewrite documents_insert_all_ne by discriminate.
    rewrite documents_insert_all. apply Permutation_refl.
  - destruct (String.eqb_spec coll "solutionguide") as [-> | Hg].
    + eexists. split; [| intros _ H; now destruct H].
      rewrite documents_insert_all.
      rewrite documents_insert_all_ne by discriminate. apply Permutation_refl.
    + exists [].
      rewrite !documents_insert_all_ne by congruence. rewrite app_nil_r.
      split; [apply Permutation_refl | intros _ _; split; reflexivity].
Qed.

(** X8. On a store that is initialised but cannot be reached, the run ends
    with the driver's exception at the first count: it is not turned into an
    HTTP error by the handler, and nothing is inserted. *)
Theorem seed_store_unreachable (d : Database) (tr : list Event) (e : Exception) :
  fault d = Some e ->
  seed_sample_data str {| db := Some d; calls := tr |}
  = ({| db := Some d; calls := tr ++ [Count "issuecategory" []] |}, Raise (Other e)).
Proof.
  intros Hf. unfold seed_sample_data. cbn [db].
  unfold bind at 1. unfold count_documents. cbn [db]. now rewrite Hf.
Qed.

(** X9. Seeding and listing compose: after a run over an empty category
    collection [GET /api/categories] returns the four seed categories, in
    whatever order the store keeps them, each with the fields of its record
    and, in front, the identifier the store gave it, as a string. *)
Theorem seed_then_list_categories (d : Database) (tr : list Event) :
  fault d = None ->
  documents d "issuecategory" = [] ->
  exists w' served,
    seed_sample_data str {| db := Some d; calls := tr |}
    = (w', Ok [("message", VStr "Seed complete")])
    /\ snd (list_categories str isoformat w') = Ok served
    /\ Permutation served
         (served_docs str (next_id d) (map model_dump seed_categories)).
Proof.
  intros Hf Hempty. eexists. eexists. split; [apply seed_sample_data_run; exact Hf |].
  unfold list_categories, bind.
  rewrite get_documents_run by (now rewrite !fault_insert_all).
  rewrite filter_matches_all.
  rewrite documents_insert_all_ne by discriminate.
  rewrite documents_insert_all, Hempty.
  unfold seed_if_empty at 1. rewrite Hempty. cbn [length Nat.eqb app snd ret].
  split; [reflexivity |].
  rewrite serialize_stored_docs; [apply Permutation_refl |].
  apply Forall_forall. intros r [c [<- _]]%in_map_iff. apply IssueCategory_plain.
Qed.

End SeederRuns.

(** ** Service requests *)

Section Requests.

Variable str : value -> string.
Variable isoformat : datetime -> string.

(** X10. The handler of a service request turns every failure of the store
    into the HTTP error 500 and leaves the database as it was: on a store
    that was never initialised, and on one that cannot be reached, where the
    detail is the message of the driver's exception. No other exception
    leaves the handler. *)
Theorem create_service_request_errors (payload : ServiceRequest) (w : World) :
  let r := create_service_request str payload w in
  (forall e, snd r <> Raise (Other e))
  /\ (forall code detail, snd r = Raise (HTTPException code detail) ->
        code = 500%Z /\ db (fst r) = db w)
  /\ (db w = None -> exists detail, r = (w, Raise (HTTPException 500 detail)))
  /\ (forall d e, db w = Some d -> fault d = Some e ->
        snd r = Raise (HTTPException 500 (exc_str e))).
Proof.
  destruct w as [[d |] tr]; unfold create_service_request, try_except, bind,
    create_document; cbn [db].
  - destruct (fault d) as [e |] eqn:Hf; cbn.
    + split; [discriminate |]. split; [intros c dt [= <- _]; now split |].
      split; [discriminate |]. intros d' e' [= <-] He.
      rewrite Hf in He. injection He as <-. reflexivity.
    + split; [discriminate |]. split; [discriminate |].
      split; [discriminate |]. intros d' e' [= <-] He. congruence.
  - cbn. split; [discriminate |]. split; [intros c dt [= <- _]; now split |].
    split; [intros _; eexists; reflexivity |]. discriminate.
Qed.

(** X11. On a store that can be reached the handler stores the request as
    one new document at the end of the [servicerequest] collection, touches
    no other collection, and answers with the identifier the store gave the
    document; serializing the stored document gives the request's fields
    with that same identifier under ["id"]. *)
Theorem create_service_request_stores (payload : ServiceRequest) (d : Database)
    (tr : list Event) :
  fault d = None ->
  let new_id := VObjectId (mkObjectId (next_id d)) in
  let stored := ("_id", new_id) :: model_dump payload in
  exists d',
    create_service_request str payload {| db := Some d; calls := tr |}
    = ({| db := Some d'; calls := tr ++ [Insert "servicerequest" (model_dump payload)] |},
       Ok [("id", VStr (str new_id)); ("message", VStr "Request submitted successfully")])
    /\ documents d' "servicerequest" = documents d "servicerequest" ++ [stored]
    /\ (forall coll, coll <> "servicerequest" -> documents d' coll = documents d coll)
    /\ next_id d' = N.succ (next_id d)
    /\ _serialize str isoformat stored = ("id", VStr (str new_id)) :: model_dump payload.
Proof.
  intros Hf new_id stored. eexists. split; [| split; [| split; [| split]]].
  - unfold create_service_request, try_except, bind, create_document. cbn [db].
    rewrite Hf. reflexivity.
  - apply documents_insert_one.
  - intros coll Hne. apply documents_insert_one_ne. congruence.
  - reflexivity.
  - apply serialize_stored, ServiceRequest_plain.
Qed.

End Requests.

(** ** More on the listings *)

Section Listings.

Variable str : value -> string.
Variable isoformat : datetime -> string.

(** X12. The two listings only read: whatever the state of the store, with
    or without a filter, and also when they raise, the database is
    afterwards what it was. *)
Theorem listings_read_only (category_key : option string) (w : World) :
  db (fst (list_guides str isoformat category_key w)) = db w
  /\ db (fst (list_categories str isoformat w)) = db w.
Proof.
  destruct w as [[d |] tr]; unfold list_guides, list_categories, bind, get_documents;
    cbn [db]; [destruct (fault d) |]; split; reflexivity.
Qed.

(** X13. On a store that can be reached a filtered listing of the guides is
    a part of the unfiltered one: both succeed, every guide served for a
    key is also served without a key, and there are no more of them. *)
Theorem list_guides_filtered_part (d : Database) (tr : list Event) (K : string) :
  fault d = None ->
  let w := {| db := Some d; calls := tr |} in
  exists some all,
    snd (list_guides str isoformat (Some K) w) = Ok some
    /\ snd (list_guides str isoformat None w) = Ok all
    /\ incl some all
    /\ length some <= length all
    /\ length all = length (documents d "solutionguide").
Proof.
  intros Hf w. subst w. unfold list_guides, bind.
  rewrite !get_documents_run by exact Hf. cbn [snd ret].
  eexists. eexists. split; [reflexivity |]. split; [reflexivity |].
  rewrite filter_matches_all, !length_map.
  split; [| split; [apply length_filter_le | reflexivity]].
  intros out [doc [<- Hin]]%in_map_iff. apply in_map.
  apply filter_In in Hin. tauto.
Qed.

End Listings.

(** ** More on the diagnostic endpoint *)

Lemma slice_to_all (n : nat) (s : string) : py_len s <= n -> slice_to n s = s.
Proof.
  revert n. induction s as [| c s IH]; intros n; simpl; [reflexivity |].
  destruct (is_continuation c).
  - intros H. now rewrite IH.
  - destruct n as [| n]; [lia |]. intros H. rewrite IH by lia. reflexivity.
Qed.

(** X14. The report always has the same six entries in the same order,
    whatever the store does. *)
Theorem test_database_report_keys (db : option Database) (getenv : string -> option string) :
  exists r, test_database db getenv = Ok r /\ keys r = report_keys.
Proof.
  destruct db as [[nm flt colls nid] |]; [| eexists; split; reflexivity].
  destruct nm as [| v | e]; destruct flt as [e' |]; eexists; split; reflexivity.
Qed.

(** X15. What the report says of the connection: it is [Connected] exactly
    when there is a handle whose name can be read, also when the driver then
    fails; and the list of collections is empty whenever there is no handle,
    the name cannot be read or the driver fails. *)
Theorem test_database_connection (db : option Database) (getenv : string -> option string) :
  exists r,
    test_database db getenv = Ok r
    /\ match db with
       | None =>
           dict_get "connection_status" r = Some (VStr "Not Connected")
           /\ dict_get "collections" r = Some (VList [])
       | Some d =>
           match name d, fault d with
           | AttrRaises _, _ =>
               dict_get "connection_status" r = Some (VStr "Not Connected")
               /\ dict_get "collections" r = Some (VList [])
           | _, Some _ =>
               dict_get "connection_status" r = Some (VStr "Connected")
               /\ dict_get "collections" r = Some (VList [])
           | _, None =>
               dict_get "connection_status" r = Some (VStr "Connected")
           end
       end.
Proof.
  destruct db as [[nm flt colls nid] |]; [| eexists; repeat split].
  destruct nm as [| v | e]; destruct flt as [e' |]; eexists; repeat split.
Qed.

(** X16. A message of 50 characters or fewer is quoted whole: the database
    entry is then the prefix of the failing check followed by the message
    of the exception, for a failure of the driver and for a name that
    cannot be read. *)
Theorem test_database_short_message (d : Database) (getenv : string -> option string)
    (e : Exception) :
  py_len (exc_str e) <= 50 ->
  name d = AttrRaises e \/ ((forall e', name d <> AttrRaises e') /\ fault d = Some e) ->
  exists r,
    test_database (Some d) getenv = Ok r
    /\ dict_get "database" r
       = Some (VStr ((match name d with
                      | AttrRaises _ => "❌ Error: "
                      | _ => "⚠️  Connected but Error: "
                      end) +:+ exc_str e)).
Proof.
  intros Hlen Hcase. apply (slice_to_all 50) in Hlen.
  destruct d as [nm flt colls nid]. simpl in Hcase.
  destruct Hcase as [-> | [Hname ->]].
  - eexists. split; [reflexivity |]. cbn [name]. rewrite <- Hlen at 2. reflexivity.
  - destruct nm as [| v | e0]; [| | now destruct (Hname e0)];
      (eexists; split; [reflexivity |]); cbn [name]; rewrite <- Hlen at 2; reflexivity.
Qed.

(** X17. An environment variable that is set to the empty string is
    reported as not set, like one that is absent; any other value is
    reported as set. The entry does not depend on the store. *)
Theorem test_database_env (db : option Database) (getenv : string -> option string) :
  exists r,
    test_database db getenv = Ok r
    /\ (getenv "DATABASE_URL" = None \/ getenv "DATABASE_URL" = Some "" ->
        dict_get "database_url" r = Some (VStr "❌ Not Set"))
    /\ (forall s, s <> "" -> getenv "DATABASE_URL" = Some s ->
        dict_get "database_url" r = Some (VStr "✅ Set"))
    /\ (getenv "DATABASE_NAME" = None \/ getenv "DATABASE_NAME" = Some "" ->
        dict_get "database_name" r = Some (VStr "❌ Not Set"))
    /\ (forall s, s <> "" -> getenv "DATABASE_NAME" = Some s ->
        dict_get "database_name" r = Some (VStr "✅ Set")).
Proof.
  assert (Hset : forall o s, s <> "" -> o = Some s -> truthy o = true).
  { intros o s Hs ->. simpl. now destruct (String.eqb_spec s ""). }
  assert (Hunset : forall o, o = None \/ o = Some "" -> truthy o = false).
  { intros o [-> | ->]; reflexivity. }
  assert (Hrun : exists r,
            test_database db getenv = Ok r
            /\ dict_get "database_url" r
               = Some (VStr (if truthy (getenv "DATABASE_URL")
                             then "✅ Set" else "❌ Not Set"))
            /\ dict_get "database_name" r
               = Some (VStr (if truthy (getenv "DATABASE_NAME")
                             then "✅ Set" else "❌ Not Set"))).
  { destruct db as [[nm flt colls nid] |]; [| eexists; repeat split].
    destruct nm as [| v | e]; destruct flt as [e' |]; eexists; repeat split. }
  destruct Hrun as (r & Hr & Hurl & Hname). exists r. split; [exact Hr |].
  rewrite Hurl, Hname. repeat split.
  - intros H. now rewrite (Hunset _ H).
  - intros s Hs H. now rewrite (Hset _ s Hs H).
  - intros H. now rewrite (Hunset _ H).
  - intros s Hs H. now rewrite (Hset _ s Hs H).
Qed.

(** ** Schema records through the store *)

Section SchemaRecords.

Variable str : value -> string.
Variable isoformat : datetime -> string.

(** X18. A category and a guide, stored under an identifier, are served as
    the fields of the record, unchanged and in their order (the devices and
    the steps of a guide too), with the identifier as a string in front
    under ["id"]. *)
Theorem schema_records_served (o : ObjectId) (c : IssueCategory) (g : SolutionGuide) :
  _serialize str isoformat (("_id", VObjectId o) :: model_dump c)
  = ("id", VStr (str (VObjectId o))) :: model_dump c
  /\ _serialize str isoformat (("_id", VObjectId o) :: model_dump g)
     = ("id", VStr (str (VObjectId o))) :: model_dump g.
Proof.
  split; apply serialize_stored; [apply IssueCategory_plain | apply SolutionGuide_plain].
Qed.

End SchemaRecords.

(** ** The further properties at concrete inputs *)

Lemma serialize_output_shape_witness :
  In ("refs", VList [VStr "3"; VStr "x"; VDatetime example_time])
    (_serialize example_str example_isoformat dated_record)
  /\ existsb is_ObjectId [VStr "3"; VStr "x"; VDatetime example_time] = false.
Proof.
  assert (Hin : In ("refs", VList [VStr "3"; VStr "x"; VDatetime example_time])
                  (_serialize example_str example_isoformat dated_record))
    by (right; right; left; reflexivity).
  split; [exact Hin |].
  destruct (serialize_output_shape example_str example_isoformat dated_record)
    as (_ & _ & Hvals & _).
  destruct (Hvals _ _ Hin) as [_ Hlist]. now apply Hlist.
Defined.

Lemma serialize_datetime_field_witness :
  wf_dict dated_record
  /\ dict_get "created_at" dated_record = Some (VDatetime example_time)
  /\ dict_get "created_at" (_serialize example_str example_isoformat dated_record)
     = Some (VStr "2024-5-17").
Proof.
  assert (Hwf : wf_dict dated_record) by wf_dict_by_cases.
  split; [exact Hwf |]. split; [reflexivity |].
  apply (serialize_datetime_field example_str example_isoformat dated_record
           "created_at" example_time Hwf); [discriminate | discriminate | reflexivity].
Defined.

Lemma serialize_list_field_witness :
  wf_dict dated_record
  /\ dict_get "refs" dated_record
     = Some (VList [VObjectId (mkObjectId 3); VStr "x"; VDatetime example_time])
  /\ exists l',
       dict_get "refs" (_serialize example_str example_isoformat dated_record)
       = Some (VList l')
       /\ length l' = 3
       /\ nth_error l' 0 = Some (VStr "3")
       /\ nth_error l' 2 = Some (VDatetime example_time).
Proof.
  assert (Hwf : wf_dict dated_record) by wf_dict_by_cases.
  split; [exact Hwf |]. split; [reflexivity |].
  destruct (serialize_list_field example_str example_isoformat dated_record "refs"
              [VObjectId (mkObjectId 3); VStr "x"; VDatetime example_time] Hwf
              ltac:(discriminate) ltac:(discriminate) eq_refl)
    as (l' & Hget & Hlen & Hnth).
  exists l'. split; [exact Hget |]. split; [exact Hlen |].
  split; [apply (Hnth 0 _ eq_refl) | apply (Hnth 2 _ eq_refl)].
Defined.

Lemma serialize_without_collision_witness :
  wf_dict dated_record
  /\ dict_get "id" dated_record = None
  /\ keys (_serialize example_str example_isoformat dated_record)
     = ["id"; "created_at"; "refs"].
Proof.
  assert (Hwf : wf_dict dated_record) by wf_dict_by_cases.
  split; [exact Hwf |]. split; [reflexivity |].
  destruct (serialize_without_collision example_str example_isoformat dated_record
              Hwf (or_intror eq_refl)) as [_ Hkeys].
  exact Hkeys.
Defined.

Lemma serialize_id_collision_witness :
  wf_dict colliding_record
  /\ dict_get "id" (_serialize example_str example_isoformat colliding_record)
     = Some (VStr "mine").
Proof.
  assert (Hwf : wf_dict colliding_record) by wf_dict_by_cases.
  split; [exact Hwf |].
  exact (serialize_id_collision example_str example_isoformat []
           [("name", VStr "Ada")] []
           ("_id", VObjectId (mkObjectId 9)) ("id", VStr "mine") Hwf eq_refl eq_refl).
Defined.

Lemma seed_twice_witness :
  fault empty_store = None
  /\ exists d1 tr1,
       seed_sample_data example_str {| db := Some empty_store; calls := [] |}
       = ({| db := Some d1; calls := tr1 |}, Ok [("message", VStr "Seed complete")])
       /\ fst (seed_sample_data example_str {| db := Some d1; calls := tr1 |})
          = {| db := Some d1;
               calls := tr1 ++ [Count "issuecategory" []; Count "solutionguide" []] |}.
Proof.
  split; [reflexivity |].
  destruct (seed_twice example_str empty_store [] eq_refl) as (d1 & tr1 & H1 & H2).
  exists d1, tr1. split; [exact H1 |]. now rewrite H2.
Defined.

Lemma seed_appends_witness :
  fault store_with_category = None
  /\ exists d' tr' added,
       seed_sample_data example_str {| db := Some store_with_category; calls := [] |}
       = ({| db := Some d'; calls := tr' |}, Ok [("message", VStr "Seed complete")])
       /\ Permutation (documents d' "issuecategory")
            (documents store_with_category "issuecategory" ++ added)
       /\ documents d' "servicerequest" = documents store_with_category "servicerequest".
Proof.
  split; [reflexivity |].
  destruct (seed_appends example_str store_with_category [] eq_refl)
    as (d' & tr' & Hrun & _ & Hcoll).
  destruct (Hcoll "issuecategory") as (added & Hadded & _).
  destruct (Hcoll "servicerequest") as (none & _ & Hsame).
  exists d', tr', added. split; [exact Hrun |]. split; [exact Hadded |].
  apply Hsame; discriminate.
Defined.

Lemma seed_store_unreachable_witness :
  fault unreachable_store = Some (Exc "connection refused")
  /\ seed_sample_data example_str {| db := Some unreachable_store; calls := [] |}
     = ({| db := Some unreachable_store; calls := [Count "issuecategory" []] |},
        Raise (Other (Exc "connection refused"))).
Proof.
  split; [reflexivity |].
  exact (seed_store_unreachable example_str unreachable_store []
           (Exc "connection refused") eq_refl).
Defined.

Lemma seed_then_list_categories_witness :
  fault empty_store = None
  /\ documents empty_store "issuecategory" = []
  /\ exists w' served,
       seed_sample_data example_str {| db := Some empty_store; calls := [] |}
       = (w', Ok [("message", VStr "Seed complete")])
       /\ snd (list_categories example_str example_isoformat w') = Ok served
       /\ length served = 4
       /\ Permutation served
            (served_docs example_str 0 (map model_dump seed_categories)).
Proof.
  split; [reflexivity |]. split; [reflexivity |].
  destruct (seed_then_list_categories example_str example_isoformat empty_store []
              eq_refl eq_refl) as (w' & served & Hrun & Hlist & Hperm).
  exists w', served. split; [exact Hrun |]. split; [exact Hlist |].
  split; [| exact Hperm].
  apply Permutation_length in Hperm. rewrite Hperm. reflexivity.
Defined.

Lemma create_service_request_errors_witness :
  fault unreachable_store = Some (Exc "connection refused")
  /\ snd (create_service_request example_str example_request
            {| db := Some unreachable_store; calls := [] |})
     = Raise (HTTPException 500 "connection refused").
Proof.
  split; [reflexivity |].
  destruct (create_service_request_errors example_str example_request
              {| db := Some unreachable_store; calls := [] |}) as (_ & _ & _ & Hfault).
  exact (Hfault unreachable_store (Exc "connection refused") eq_refl eq_refl).
Defined.

Lemma create_service_request_stores_witness :
  fault empty_store = None
  /\ exists d',
       create_service_request example_str example_request
         {| db := Some empty_store; calls := [] |}
       = ({| db := Some d'; calls := [Insert "servicerequest" (model_dump example_request)] |},
          Ok [("id", VStr "0"); ("message", VStr "Request submitted successfully")])
       /\ documents d' "servicerequest"
          = [("_id", VObjectId (mkObjectId 0)) :: model_dump example_request].
Proof.
  split; [reflexivity |].
  destruct (create_service_request_stores example_str example_isoformat example_request
              empty_store [] eq_refl) as (d' & Hrun & Hdocs & _).
  exists d'. split; [exact Hrun | exact Hdocs].
Defined.

Lemma list_guides_filtered_part_witness :
  fault store_with_guides = None
  /\ exists some all,
       snd (list_guides example_str example_isoformat (Some "frp")
              {| db := Some store_with_guides; calls := [] |}) = Ok some
       /\ snd (list_guides example_str example_isoformat None
                 {| db := Some store_with_guides; calls := [] |}) = Ok all
       /\ incl some all
       /\ length all = 3.
Proof.
  split; [reflexivity |].
  destruct (list_guides_filtered_part example_str example_isoformat store_with_guides
              [] "frp" eq_refl) as (some & all & Hsome & Hall & Hincl & _ & Hlen).
  exists some, all. split; [exact Hsome |]. split; [exact Hall |].
  split; [exact Hincl | exact Hlen].
Defined.

Lemma test_database_short_message_witness :
  py_len "connection refused" <= 50
  /\ fault unreachable_store = Some (Exc "connection refused")
  /\ exists r,
       test_database (Some unreachable_store) no_env = Ok r
       /\ dict_get "database" r
          = Some (VStr "⚠️  Connected but Error: connection refused").
Proof.
  split; [vm_compute; lia |]. split; [reflexivity |].
  assert (Hlen : py_len (exc_str (Exc "connection refused")) <= 50) by (vm_compute; lia).
  assert (Hname : forall e', name unreachable_store <> AttrRaises e') by discriminate.
  destruct (test_database_short_message unreachable_store no_env
              (Exc "connection refused") Hlen (or_intror (conj Hname eq_refl)))
    as (r & Hr & Hdb).
  exists r. split; [exact Hr | exact Hdb].
Defined.

Lemma test_database_env_witness :
  env_blank_url "DATABASE_URL" = Some ""
  /\ env_blank_url "DATABASE_NAME" = Some "repair"
  /\ exists r,
       test_database (Some empty_store) env_blank_url = Ok r
       /\ dict_get "database_url" r = Some (VStr "❌ Not Set")
       /\ dict_get "database_name" r = Some (VStr "✅ Set").
Proof.
  split; [reflexivity |]. split; [reflexivity |].
  destruct (test_database_env (Some empty_store) env_blank_url)
    as (r & Hr & Hurl & _ & _ & Hname).
  exists r. split; [exact Hr |]. split.
  - apply Hurl. right. reflexivity.
  - apply (Hname "repair"); [discriminate | reflexivity].
Defined.
